(** * Sistema bancario (main.py): contas, transacoes e historico

    Shallow embedding of the account / transaction core of [main.py]
    (classes [Conta], [ContaCorrente], [Historico], [Saque], [Deposito],
    [Cliente]) and the properties of its validation and registration
    protocol.

    Modelling conventions.
    - Amounts are the floats that the menu reads with [float(input(...))]:
      binary64 numbers, with their rounding, their infinities and NaN,
      modelled by Rocq's primitive floats.  A balance starts as the int [0]
      and is a float from the first accepted operation on; in every
      comparison, sum and difference of the methods the int [0] behaves as
      the float [0.0], so balances are floats throughout.  The ceiling and
      the maximum number of withdrawals are Python ints ([Z]); a float is
      compared with the ceiling by value, as Python does ([float_gt_int]).
    - The menu functions that parse or format amounts ([depositar], [sacar],
      [exibir_extrato]) and the loop of [main] are not part of the model;
      the functions that look up and create clients and accounts are.
    - A method that mutates [self] and prints is a function from the object
      to a result, the mutated object and the lines written by [print]
      (type [Metodo]).
    - [datetime.now()] is an input of the model: the formatted clock reading
      is passed to the methods that record a transaction.
    - The back-reference [_cliente] of an account is kept as the client's
      CPF (the object graph is cyclic in the source). *)

From Stdlib Require Import ZArith List String Ascii Bool Lia Floats.
Import ListNotations.
Open Scope string_scope.
Open Scope list_scope.
Open Scope Z_scope.

(** ** Methods: state of [self] plus console output *)

Module Metodo.

Definition t (S A : Type) : Type := S -> A * S * list string.

Definition ret {S A} (a : A) : t S A := fun s => (a, s, []).

Definition bind {S A B} (m : t S A) (k : A -> t S B) : t S B :=
  fun s =>
    let '(a, s1, o1) := m s in
    let '(b, s2, o2) := k a s1 in
    (b, s2, o1 ++ o2).

(** read [self] *)
Definition self {S} : t S S := fun s => (s, s, []).

(** assignment to the attributes of [self] *)
Definition atribuir {S} (f : S -> S) : t S unit := fun s => (tt, f s, []).

Definition print {S} (linha : string) : t S unit := fun s => (tt, s, [linha]).

(** run a method of a component object stored in an attribute of [self] *)
Definition em {S P A} (ler : S -> P) (gravar : S -> P -> S) (m : t P A) : t S A :=
  fun s => let '(a, p, o) := m (ler s) in (a, gravar s p, o).

Definition retorno {S A} (r : A * S * list string) : A := fst (fst r).
Definition estado {S A} (r : A * S * list string) : S := snd (fst r).
Definition saida {S A} (r : A * S * list string) : list string := snd r.

End Metodo.

Notation "x <- m ;; k" := (Metodo.bind m (fun x => k))
  (at level 61, m at next level, right associativity).
Notation "m ;;; k" := (Metodo.bind m (fun _ => k))
  (at level 61, right associativity).

Import Metodo.

(** ** Console messages *)

Definition LF : string := String (ascii_of_nat 10) EmptyString.

Definition msg_valor_invalido : string :=
  (LF ++ "@@@ Operação falhou! Valor inválido. @@@")%string.
Definition msg_saldo_insuficiente : string :=
  (LF ++ "@@@ Operação falhou! Saldo insuficiente. @@@")%string.
Definition msg_saque_sucesso : string :=
  (LF ++ "=== Saque realizado com sucesso! ===")%string.
Definition msg_deposito_sucesso : string :=
  (LF ++ "=== Depósito realizado com sucesso! ===")%string.
Definition msg_acima_limite : string :=
  (LF ++ "@@@ Operação falhou! Valor acima do limite. @@@")%string.
Definition msg_maximo_saques : string :=
  (LF ++ "@@@ Operação falhou! Número máximo de saques atingido. @@@")%string.

(** ** Transacao, Saque, Deposito (data) *)

Inductive Transacao : Type :=
| Saque (_valor : float)
| Deposito (_valor : float).

Definition valor (t : Transacao) : float :=
  match t with
  | Saque v => v
  | Deposito v => v
  end.

(** [transacao.__class__.__name__] *)
Definition class_name (t : Transacao) : string :=
  match t with
  | Saque _ => "Saque"
  | Deposito _ => "Deposito"
  end.

(** [Saque.__name__] *)
Definition Saque_name : string := "Saque".

(** ** Historico *)

(** one entry of [_transacoes]: the dict with keys "tipo", "valor", "data" *)
Record Registro : Type := mkRegistro {
  tipo : string;
  reg_valor : float;
  data : string
}.

Record Historico : Type := mkHistorico {
  _transacoes : list Registro
}.

Definition Historico_init : Historico := mkHistorico [].

Definition transacoes (h : Historico) : list Registro := _transacoes h.

Definition registro_de (transacao : Transacao) (agora : string) : Registro :=
  mkRegistro (class_name transacao) (valor transacao) agora.

Definition adicionar_transacao (transacao : Transacao) (agora : string)
  : Metodo.t Historico unit :=
  atribuir (fun h => mkHistorico (_transacoes h ++ [registro_de transacao agora])).

(** ** Conta *)

Record Conta : Type := mkConta {
  _saldo : float;
  _numero : Z;
  _agencia : string;
  _cliente : string;
  _historico : Historico
}.

Definition Conta_init (numero : Z) (cliente : string) : Conta :=
  mkConta 0%float numero "0001" cliente Historico_init.

Definition com_saldo (c : Conta) (s : float) : Conta :=
  mkConta s (_numero c) (_agencia c) (_cliente c) (_historico c).

Definition com_historico (c : Conta) (h : Historico) : Conta :=
  mkConta (_saldo c) (_numero c) (_agencia c) (_cliente c) h.

(** [valor > self._saldo] is written [_saldo < valor], the same IEEE test
    (false as soon as one side is NaN). *)
Definition Conta_sacar (valor : float) : Metodo.t Conta bool :=
  c <- self ;;
  if (valor <=? 0)%float then
    print msg_valor_invalido ;;;
    ret false
  else if (_saldo c <? valor)%float then
    print msg_saldo_insuficiente ;;;
    ret false
  else
    atribuir (fun c => com_saldo c (_saldo c - valor)%float) ;;;
    print msg_saque_sucesso ;;;
    ret true.

Definition Conta_depositar (valor : float) : Metodo.t Conta bool :=
  if (valor <=? 0)%float then
    print msg_valor_invalido ;;;
    ret false
  else
    atribuir (fun c => com_saldo c (_saldo c + valor)%float) ;;;
    print msg_deposito_sucesso ;;;
    ret true.

(** ** ContaCorrente(Conta) *)

Record ContaCorrente : Type := mkContaCorrente {
  super : Conta;
  _limite : Z;
  _limite_saques : Z
}.

Definition ContaCorrente_init (numero : Z) (cliente : string)
    (limite limite_saques : Z) : ContaCorrente :=
  mkContaCorrente (Conta_init numero cliente) limite limite_saques.

Definition com_super (cc : ContaCorrente) (c : Conta) : ContaCorrente :=
  mkContaCorrente c (_limite cc) (_limite_saques cc).

(** [len([t for t in self.historico.transacoes if t["tipo"] == Saque.__name__])] *)
Definition numero_saques (h : Historico) : Z :=
  Z.of_nat (List.length (filter (fun t => String.eqb (tipo t) Saque_name) (transacoes h))).

(** Python's [x > n] for a float [x] and an int [n]: the two are compared by
    value, exactly (the int is not rounded to a float); NaN is greater than
    nothing, plus infinity than every int.  A finite float is
    [mantissa * 2 ^ e]. *)
Definition float_gt_int (x : float) (n : Z) : bool :=
  match Prim2SF x with
  | S754_nan => false
  | S754_infinity s => negb s
  | S754_zero _ => n <? 0
  | S754_finite s m e =>
      let mantissa := if s then Zneg m else Zpos m in
      if 0 <=? e then n <? mantissa * 2 ^ e
      else n * 2 ^ (- e) <? mantissa
  end.

Definition ContaCorrente_sacar (valor : float) : Metodo.t ContaCorrente bool :=
  cc <- self ;;
  let numero_saques := numero_saques (_historico (super cc)) in
  if float_gt_int valor (_limite cc) then
    print msg_acima_limite ;;;
    ret false
  else if numero_saques >=? _limite_saques cc then
    print msg_maximo_saques ;;;
    ret false
  else
    em super com_super (Conta_sacar valor).

(** ** Account objects and method dispatch

    [conta.sacar(...)] in [registrar] is resolved on the class of the
    object: [Conta.sacar] for a plain account, the override
    [ContaCorrente.sacar] for a checking account.  [depositar] and the
    properties [saldo] and [historico] are inherited unchanged. *)

Inductive Objeto : Type :=
| UmaConta (c : Conta)
| UmaContaCorrente (cc : ContaCorrente).

Definition base (o : Objeto) : Conta :=
  match o with
  | UmaConta c => c
  | UmaContaCorrente cc => super cc
  end.

Definition com_base (o : Objeto) (c : Conta) : Objeto :=
  match o with
  | UmaConta _ => UmaConta c
  | UmaContaCorrente cc => UmaContaCorrente (com_super cc c)
  end.

Definition saldo (o : Objeto) : float := _saldo (base o).

Definition historico (o : Objeto) : Historico := _historico (base o).

Definition com_historico_de (o : Objeto) (h : Historico) : Objeto :=
  com_base o (com_historico (base o) h).

(** [cls.nova_conta(cliente, numero)], for [cls = Conta] and for
    [cls = ContaCorrente] (which takes the default limits 500 and 3) *)
Definition Conta_nova_conta (cliente : string) (numero : Z) : Objeto :=
  UmaConta (Conta_init numero cliente).

Definition ContaCorrente_nova_conta (cliente : string) (numero : Z) : Objeto :=
  UmaContaCorrente (ContaCorrente_init numero cliente 500 3).

Definition sacar (valor : float) : Metodo.t Objeto bool :=
  fun o =>
    match o with
    | UmaConta c =>
        let '(r, c', out) := Conta_sacar valor c in (r, UmaConta c', out)
    | UmaContaCorrente cc =>
        let '(r, cc', out) := ContaCorrente_sacar valor cc in
        (r, UmaContaCorrente cc', out)
    end.

Definition depositar (valor : float) : Metodo.t Objeto bool :=
  em base com_base (Conta_depositar valor).

(** ** Saque.registrar, Deposito.registrar *)

Definition registrar (transacao : Transacao) (agora : string)
  : Metodo.t Objeto unit :=
  match transacao with
  | Saque _ =>
      ok <- sacar (valor transacao) ;;
      if ok : bool then
        em historico com_historico_de (adicionar_transacao transacao agora)
      else ret tt
  | Deposito _ =>
      ok <- depositar (valor transacao) ;;
      if ok : bool then
        em historico com_historico_de (adicionar_transacao transacao agora)
      else ret tt
  end.

(** ** Cliente, PessoaFisica *)

Record PessoaFisica : Type := mkPessoaFisica {
  endereco : string;
  contas : list Z;          (* the accounts, by number *)
  nome : string;
  data_nascimento : string;
  cpf : string
}.

Definition realizar_transacao (cliente : PessoaFisica)
    (transacao : Transacao) (agora : string) : Metodo.t Objeto unit :=
  registrar transacao agora.

Definition adicionar_conta (cliente : PessoaFisica) (numero : Z) : PessoaFisica :=
  mkPessoaFisica (endereco cliente) (contas cliente ++ [numero])
    (nome cliente) (data_nascimento cliente) (cpf cliente).

(** ** Sequences of calls on one account *)

(** What a caller can do to an account: call its two primitives directly,
    or register a transaction (stamped with the clock reading). *)
Inductive Chamada : Type :=
| ChamaSacar (valor : float)
| ChamaDepositar (valor : float)
| ChamaRegistrar (transacao : Transacao) (agora : string).

Definition chamar (ch : Chamada) (o : Objeto) : Objeto :=
  match ch with
  | ChamaSacar v => estado (sacar v o)
  | ChamaDepositar v => estado (depositar v o)
  | ChamaRegistrar t agora => estado (registrar t agora o)
  end.

Definition executar (chs : list Chamada) (o : Objeto) : Objeto :=
  fold_left (fun o ch => chamar ch o) chs o.

(** Result of the account operation a transaction performs when it is
    registered on [o]. *)
Definition aplicar (transacao : Transacao) : Metodo.t Objeto bool :=
  match transacao with
  | Saque v => sacar v
  | Deposito v => depositar v
  end.

Definition registrar_todas (ts : list (Transacao * string)) (o : Objeto) : Objeto :=
  fold_left (fun o ta => estado (registrar (fst ta) (snd ta) o)) ts o.

(** The records of the transactions of [ts] whose account operation reported
    success, in the order the transactions were registered. *)
Fixpoint registros_bem_sucedidos (ts : list (Transacao * string)) (o : Objeto)
  : list Registro :=
  match ts with
  | [] => []
  | (t, agora) :: ts' =>
      let o' := estado (registrar t agora o) in
      if retorno (aplicar t o)
      then registro_de t agora :: registros_bem_sucedidos ts' o'
      else registros_bem_sucedidos ts' o'
  end.

(** ** Derived notions used in the statements *)

(** The two gates of [ContaCorrente.sacar], as tests on an account object
    (a plain account has neither). *)
Definition limite_excedido (o : Objeto) (v : float) : bool :=
  match o with
  | UmaConta _ => false
  | UmaContaCorrente cc => float_gt_int v (_limite cc)
  end.

Definition maximo_atingido (o : Objeto) : bool :=
  match o with
  | UmaConta _ => false
  | UmaContaCorrente cc => _limite_saques cc <=? numero_saques (historico o)
  end.

(** The limits of an account object: none for a plain account, the ceiling
    and the maximum number of withdrawals for a checking account. *)
Definition limites (o : Objeto) : option (Z * Z) :=
  match o with
  | UmaConta _ => None
  | UmaContaCorrente cc => Some (_limite cc, _limite_saques cc)
  end.

(** The lines printed on the failure paths of [sacar] and [depositar]. *)
Definition mensagens_de_falha : list string :=
  [msg_valor_invalido; msg_saldo_insuficiente; msg_acima_limite; msg_maximo_saques].

(** ** Example accounts *)

(** A checking account with the default limits that has received a deposit
    of 1000 and three registered withdrawals of 100. *)
Definition conta_com_tres_saques : Objeto :=
  registrar_todas
    [(Deposito 1000, "03-11-2026 09:00:00"); (Saque 100, "03-11-2026 09:01:00");
     (Saque 100, "03-11-2026 09:02:00"); (Saque 100, "03-11-2026 09:03:00")]
    (ContaCorrente_nova_conta "12345678900" 1).

(** A checking account at its maximum number of withdrawals. *)
Definition cc_no_maximo : ContaCorrente :=
  mkContaCorrente
    (mkConta 700 1 "0001" "12345678900"
       (mkHistorico
          [mkRegistro "Deposito" 1000 "03-11-2026 09:00:00";
           mkRegistro "Saque" 100 "03-11-2026 09:01:00";
           mkRegistro "Saque" 100 "03-11-2026 09:02:00";
           mkRegistro "Saque" 100 "03-11-2026 09:03:00"]))
    500 3.

(** The checking account of the scenario after deposit(100), withdraw(50),
    withdraw(600) and one more withdraw(50). *)
Definition conta_do_cenario : Objeto :=
  registrar_todas
    [(Deposito 100, "03-11-2026 10:00:00"); (Saque 50, "03-11-2026 10:01:00");
     (Saque 600, "03-11-2026 10:02:00"); (Saque 50, "03-11-2026 10:03:00")]
    (ContaCorrente_nova_conta "12345678900" 1).

(** ** Statement of an account *)

(** What one record of the history does to a balance when the history is
    replayed: a withdrawal takes its amount out, a deposit puts it in, with
    the float operations of [sacar] and [depositar]. *)
Definition repor (s : float) (r : Registro) : float :=
  if String.eqb (tipo r) "Saque" then (s - reg_valor r)%float
  else if String.eqb (tipo r) "Deposito" then (s + reg_valor r)%float
  else s.

(** The balance obtained by replaying a statement, first record first, from
    the balance [s]. *)
Definition saldo_reposto (s : float) (rs : list Registro) : float :=
  fold_left repor rs s.

(** A record as [Saque.registrar] / [Deposito.registrar] can write it on the
    account [o]: a known kind, an amount that the test [valor <= 0] did not
    stop and, for a withdrawal on a checking account, an amount that the
    test of the ceiling did not stop. *)
Definition registro_valido (o : Objeto) (r : Registro) : Prop :=
  (tipo r = "Saque" \/ tipo r = "Deposito")
  /\ (reg_valor r <=? 0)%float = false
  /\ (tipo r = "Saque" -> limite_excedido o (reg_valor r) = false).

(** ** Floats that are numbers

    Not part of the program: Python's [math.isfinite], and the floats that
    are zero or positive, used to state what holds when the amounts typed
    are numbers. *)

Definition isfinite (x : float) : bool :=
  match Prim2SF x with
  | S754_zero _ | S754_finite _ _ _ => true
  | S754_infinity _ | S754_nan => false
  end.

(** zero (of either sign), a positive number or plus infinity; not NaN *)
Definition sf_nao_negativo (r : spec_float) : Prop :=
  match r with
  | S754_zero _ => True
  | S754_infinity s => s = false
  | S754_nan => False
  | S754_finite s _ _ => s = false
  end.

(** the amount a call carries *)
Definition valor_da_chamada (ch : Chamada) : float :=
  match ch with
  | ChamaSacar v => v
  | ChamaDepositar v => v
  | ChamaRegistrar t _ => valor t
  end.

(** ** Accounts used as examples of what floats do *)

(** A checking account after a registered deposit of 100 and a registered
    withdrawal of NaN (what [float] makes of the answer "nan"). *)
Definition conta_com_saldo_nan : Objeto :=
  registrar_todas
    [(Deposito 100, "03-11-2026 12:00:00"); (Saque nan, "03-11-2026 12:01:00")]
    (ContaCorrente_nova_conta "12345678900" 1).

(** A checking account after a registered deposit of 100. *)
Definition conta_do_cenario_com_100 : Objeto :=
  registrar_todas [(Deposito 100, "03-11-2026 10:00:00")]
    (ContaCorrente_nova_conta "12345678900" 1).

(** A plain account holding 10^18, a checking account holding 2^53. *)
Definition conta_com_1e18 : Objeto :=
  registrar_todas [(Deposito 1e18, "03-11-2026 12:00:00")]
    (Conta_nova_conta "12345678900" 1).

Definition conta_com_2p53 : Objeto :=
  registrar_todas [(Deposito 9007199254740992, "03-11-2026 12:00:00")]
    (ContaCorrente_nova_conta "12345678900" 1).

(** ** Menu functions: clients and accounts

    The functions below [# Funções do sistema] that look up and create
    clients and accounts.  They read the keyboard with [input] and write
    with [print]; the terminal is the list of lines still to be read and
    what has been written so far.  [input] on an exhausted keyboard raises
    [EOFError], which nothing catches: the call has no result ([None]).
    The lists [clientes] and [contas] that the functions mutate are passed
    in and returned.  A client's [contas] holds its accounts by number. *)

Inductive Escrita : Type :=
| Linha (texto : string)         (* one [print] *)
| Pergunta (texto : string).     (* the prompt of one [input] *)

Record Terminal : Type := mkTerminal {
  entrada : list string;
  tela : list Escrita
}.

Module Menu.

Definition t (A : Type) : Type := Terminal -> option (A * Terminal).

Definition ret {A} (a : A) : t A := fun term => Some (a, term).

Definition bind {A B} (m : t A) (k : A -> t B) : t B :=
  fun term =>
    match m term with
    | None => None
    | Some (a, term') => k a term'
    end.

Definition input (pergunta : string) : t string :=
  fun term =>
    match entrada term with
    | [] => None
    | linha :: resto =>
        Some (linha, mkTerminal resto (tela term ++ [Pergunta pergunta]))
    end.

Definition print (linha : string) : t unit :=
  fun term => Some (tt, mkTerminal (entrada term) (tela term ++ [Linha linha])).

End Menu.

Notation "x <~ m ;; k" := (Menu.bind m (fun x => k))
  (at level 61, m at next level, right associativity).
Notation "m ~;; k" := (Menu.bind m (fun _ => k))
  (at level 61, right associativity).

Definition msg_cliente_nao_encontrado : string :=
  (LF ++ "@@@ Cliente não encontrado! @@@")%string.
Definition msg_cliente_sem_conta : string :=
  (LF ++ "@@@ Cliente não possui conta! @@@")%string.
Definition msg_cpf_ja_existe : string :=
  (LF ++ "@@@ Já existe cliente com esse CPF! @@@")%string.
Definition msg_cliente_criado : string :=
  (LF ++ "=== Cliente criado com sucesso! ===")%string.
Definition msg_conta_criada : string :=
  (LF ++ "=== Conta criada com sucesso! ===")%string.

(** [PessoaFisica(nome, data_nascimento, cpf, endereco)] *)
Definition PessoaFisica_init (nome data_nascimento cpf endereco : string)
  : PessoaFisica :=
  mkPessoaFisica endereco [] nome data_nascimento cpf.

Definition filtrar_cliente (cpf_ : string) (clientes : list PessoaFisica)
  : option PessoaFisica :=
  find (fun c => String.eqb (cpf c) cpf_) clientes.

Definition recuperar_conta_cliente (cliente : PessoaFisica) : Menu.t (option Z) :=
  match contas cliente with
  | [] =>
      Menu.print msg_cliente_sem_conta ~;;
      Menu.ret None
  | primeira :: _ => Menu.ret (Some primeira)
  end.

Definition criar_cliente (clientes : list PessoaFisica)
  : Menu.t (list PessoaFisica) :=
  cpf_ <~ Menu.input "Informe o CPF (somente números): " ;;
  match filtrar_cliente cpf_ clientes with
  | Some _ =>
      Menu.print msg_cpf_ja_existe ~;;
      Menu.ret clientes
  | None =>
      nome <~ Menu.input "Informe o nome completo: " ;;
      data_nascimento <~ Menu.input "Informe a data de nascimento (dd-mm-aaaa): " ;;
      endereco <~ Menu.input
        "Informe o endereço (logradouro, nro - bairro - cidade/sigla estado): " ;;
      Menu.print msg_cliente_criado ~;;
      Menu.ret (clientes ++ [PessoaFisica_init nome data_nascimento cpf_ endereco])
  end.

(** The object that [filtrar_cliente] returns is the element of the list
    itself: a method that mutates it changes the first client of the list
    with that CPF. *)
Fixpoint no_cliente (cpf_ : string) (f : PessoaFisica -> PessoaFisica)
    (clientes : list PessoaFisica) : list PessoaFisica :=
  match clientes with
  | [] => []
  | c :: resto =>
      if String.eqb (cpf c) cpf_ then f c :: resto
      else c :: no_cliente cpf_ f resto
  end.

Definition criar_conta (numero_conta : Z) (clientes : list PessoaFisica)
    (contas : list Objeto) : Menu.t (list PessoaFisica * list Objeto) :=
  cpf_ <~ Menu.input "Informe o CPF do cliente: " ;;
  match filtrar_cliente cpf_ clientes with
  | None =>
      Menu.print msg_cliente_nao_encontrado ~;;
      Menu.ret (clientes, contas)
  | Some cliente =>
      let conta := ContaCorrente_nova_conta (cpf cliente) numero_conta in
      Menu.print msg_conta_criada ~;;
      Menu.ret (no_cliente cpf_ (fun c => adicionar_conta c numero_conta) clientes,
                contas ++ [conta])
  end.

(** the attribute [contas] of a client *)
Definition contas_do_cliente (c : PessoaFisica) : list Z := contas c.

(** the numbers of the accounts of [contas], in order *)
Definition numeros (contas : list Objeto) : list Z :=
  map (fun o => _numero (base o)) contas.

(** The state of the bank is consistent when the clients' CPFs are
    pairwise distinct, the accounts are numbered 1, 2, ... in the order of
    [contas], every account belongs to a registered client, and every
    account number a client holds is the number of an account of [contas]
    that names this client as its owner. *)
Definition banco_consistente (banco : list PessoaFisica * list Objeto) : Prop :=
  let '(clientes, contas) := banco in
  NoDup (map cpf clientes)
  /\ numeros contas = map (fun i => Z.of_nat i + 1) (seq 0 (List.length contas))
  /\ (forall o, In o contas -> In (_cliente (base o)) (map cpf clientes))
  /\ (forall c n, In c clientes -> In n (contas_do_cliente c) ->
        exists o, In o contas /\ _numero (base o) = n /\ _cliente (base o) = cpf c).

(** ** Proof automation *)

(** Case analysis on the tests of [sacar] and [depositar]; the tests on the
    number of withdrawals are turned into (in)equalities for [lia]. *)
Ltac testes :=
  repeat match goal with
    | |- context [if ?b then _ else _] =>
        let E := fresh "E" in destruct b eqn:E; simpl
    | H : context [if ?b then _ else _] |- _ =>
        let E := fresh "E" in destruct b eqn:E; simpl in H
    end;
  repeat match goal with
    | E : Z.leb _ _ = true |- _ => apply Z.leb_le in E
    | E : Z.leb _ _ = false |- _ => apply Z.leb_gt in E
    end.

(** * Properties *)

(** ** Comparisons and NaN *)

Lemma SFcompare_antisym (x y : spec_float) :
  SFcompare y x = option_map CompOpp (SFcompare x y).
Proof.
  destruct x as [sx|sx| |sx mx ex], y as [sy|sy| |sy my ey]; simpl;
    try reflexivity;
    try (destruct sx; reflexivity);
    try (destruct sy; reflexivity);
    try (destruct sx, sy; reflexivity).
  change (Pos.compare_cont Eq my mx) with (Pos.compare my mx).
  change (Pos.compare_cont Eq mx my) with (Pos.compare mx my).
  rewrite (Pos.compare_antisym mx my), (Z.compare_antisym ex ey).
  destruct sx, sy; simpl; try reflexivity;
    destruct (ex ?= ey); simpl; try reflexivity;
    destruct (Pos.compare mx my); reflexivity.
Qed.

Lemma ltb_leb_false (x y : float) :
  (x <? y)%float = true -> (y <=? x)%float = false.
Proof.
  rewrite ltb_spec, leb_spec. unfold SFltb, SFleb.
  rewrite (SFcompare_antisym (Prim2SF x) (Prim2SF y)).
  destruct (SFcompare (Prim2SF x) (Prim2SF y)) as [[| |]|]; simpl;
    solve [reflexivity | discriminate].
Qed.

Lemma leb_ltb_false (x y : float) :
  (x <=? y)%float = true -> (y <? x)%float = false.
Proof.
  rewrite ltb_spec, leb_spec. unfold SFltb, SFleb.
  rewrite (SFcompare_antisym (Prim2SF x) (Prim2SF y)).
  destruct (SFcompare (Prim2SF x) (Prim2SF y)) as [[| |]|]; simpl;
    solve [reflexivity | discriminate].
Qed.

Lemma nan_ltb (x : float) : (nan <? x)%float = false /\ (x <? nan)%float = false.
Proof.
  rewrite !ltb_spec. unfold SFltb. simpl.
  destruct (Prim2SF x); split; reflexivity.
Qed.

Lemma nan_leb (x : float) : (nan <=? x)%float = false /\ (x <=? nan)%float = false.
Proof.
  rewrite !leb_spec. unfold SFleb. simpl.
  destruct (Prim2SF x); split; reflexivity.
Qed.

Lemma nan_add (x : float) : (nan + x)%float = nan /\ (x + nan)%float = nan.
Proof.
  split; apply Prim2SF_inj; rewrite add_spec; simpl;
    destruct (Prim2SF x); reflexivity.
Qed.

Lemma nan_sub (x : float) : (nan - x)%float = nan /\ (x - nan)%float = nan.
Proof.
  split; apply Prim2SF_inj; rewrite sub_spec; simpl;
    destruct (Prim2SF x); reflexivity.
Qed.

(** ** The sign of a rounded sum or difference *)

Lemma leb_zero_sf (x : float) :
  (0 <=? x)%float = true <-> sf_nao_negativo (Prim2SF x).
Proof.
  rewrite leb_spec. change (Prim2SF 0) with (S754_zero false).
  unfold SFleb. destruct (Prim2SF x) as [s|s| |s m e]; simpl.
  - tauto.
  - destruct s; simpl; split; congruence.
  - split; [discriminate | tauto].
  - destruct s; simpl; split; congruence.
Qed.

Section Arredondamento.
Variables prec emax : Z.

Lemma shr_1_nao_negativo (mrs : shr_record) :
  0 <= shr_m mrs -> 0 <= shr_m (shr_1 mrs).
Proof.
  destruct mrs as [m r s]. simpl.
  destruct m as [|p|p]; simpl; try lia; destruct p; simpl; lia.
Qed.

Lemma iter_pos_shr_1_nao_negativo (p : positive) :
  forall mrs, 0 <= shr_m mrs -> 0 <= shr_m (iter_pos shr_1 p mrs).
Proof.
  induction p as [p IH|p IH|]; intros mrs H; simpl.
  - apply IH, IH, shr_1_nao_negativo, H.
  - apply IH, IH, H.
  - apply shr_1_nao_negativo, H.
Qed.

Lemma shr_fexp_nao_negativo (m e : Z) (l : location) :
  0 <= m -> 0 <= shr_m (fst (shr_fexp prec emax m e l)).
Proof.
  intros H. unfold shr_fexp, shr.
  assert (K : 0 <= shr_m (shr_record_of_loc m l))
    by (destruct l as [|[]]; simpl; exact H).
  destruct (fexp prec emax (Zdigits2 m + e) - e); simpl;
    [exact K | apply iter_pos_shr_1_nao_negativo, K | exact K].
Qed.

Lemma round_nearest_even_nao_negativo (m : Z) (l : location) :
  0 <= m -> 0 <= round_nearest_even m l.
Proof.
  intros H. destruct l as [|[]]; simpl; try lia.
  destruct (Z.even m); lia.
Qed.

Lemma binary_round_aux_nao_negativo (m e : Z) (l : location) :
  0 <= m -> sf_nao_negativo (binary_round_aux prec emax false m e l).
Proof.
  intros H. unfold binary_round_aux.
  pose proof (shr_fexp_nao_negativo m e l H) as K1.
  destruct (shr_fexp prec emax m e l) as [mrs' e']. simpl in K1.
  pose proof (shr_fexp_nao_negativo _ e' loc_Exact
                (round_nearest_even_nao_negativo _ (loc_of_shr_record mrs') K1)) as K2.
  destruct (shr_fexp prec emax (round_nearest_even (shr_m mrs') (loc_of_shr_record mrs'))
              e' loc_Exact) as [mrs'' e'']. simpl in K2.
  destruct (shr_m mrs'') as [|p|p]; simpl; [exact I | | lia].
  destruct (e'' <=? emax - prec); reflexivity.
Qed.

Lemma binary_normalize_nao_negativo (m e : Z) :
  0 <= m -> sf_nao_negativo (binary_normalize prec emax m e false).
Proof.
  intros H. destruct m as [|p|p]; simpl; [exact I | | lia].
  unfold binary_round.
  destruct (shl_align p e (fexp prec emax (Z.pos (digits2_pos p) + e))) as [mz ez].
  apply binary_round_aux_nao_negativo. lia.
Qed.

Lemma SFadd_nao_negativo (x y : spec_float) :
  sf_nao_negativo x -> sf_nao_negativo y ->
  sf_nao_negativo (SFadd prec emax x y).
Proof.
  destruct x as [sx|sx| |sx mx ex], y as [sy|sy| |sy my ey];
    intros Hx Hy; simpl in Hx, Hy; try tauto; subst;
    try (simpl; tauto).
  - simpl. destruct sx, sy; exact I.
  - unfold SFadd. apply binary_normalize_nao_negativo.
    unfold cond_Zopp. lia.
Qed.
End Arredondamento.

Lemma digits2_pos_limites (m : positive) :
  2 ^ (Zpos (digits2_pos m) - 1) <= Zpos m < 2 ^ Zpos (digits2_pos m).
Proof.
  induction m as [p IH|p IH|]; simpl digits2_pos.
  - rewrite Pos2Z.inj_succ.
    replace (Z.succ (Zpos (digits2_pos p)) - 1) with (Z.succ (Zpos (digits2_pos p) - 1)) by lia.
    rewrite !Z.pow_succ_r by lia. lia.
  - rewrite Pos2Z.inj_succ.
    replace (Z.succ (Zpos (digits2_pos p)) - 1) with (Z.succ (Zpos (digits2_pos p) - 1)) by lia.
    rewrite !Z.pow_succ_r by lia. lia.
  - simpl. lia.
Qed.

Lemma iter_xO_valor (d m : positive) :
  Zpos (Pos.iter xO m d) = Zpos m * 2 ^ Zpos d.
Proof.
  induction d as [|d IH] using Pos.peano_ind.
  - simpl. lia.
  - rewrite Pos.iter_succ, Pos2Z.inj_succ, Z.pow_succ_r by lia.
    rewrite Pos2Z.inj_xO, IH. lia.
Qed.

Lemma shl_align_valor (m : positive) (e e' : Z) :
  e' <= e -> Zpos (fst (shl_align m e e')) = Zpos m * 2 ^ (e - e').
Proof.
  intros H. unfold shl_align.
  destruct (e' - e) as [|d|d] eqn:E; cbn [fst].
  - replace (e - e') with 0 by lia. lia.
  - lia.
  - rewrite iter_xO_valor. replace (e - e') with (Zpos d) by lia. reflexivity.
Qed.

Section Subtracao.
Variables prec emax : Z.

Lemma bounded_digitos (m : positive) (e : Z) :
  bounded prec emax m e = true ->
  Zpos (digits2_pos m) <= prec
  /\ SpecFloat.emin prec emax <= e
  /\ (SpecFloat.emin prec emax < e -> Zpos (digits2_pos m) = prec).
Proof.
  unfold bounded, canonical_mantissa, SpecFloat.fexp. intros H.
  apply andb_prop in H. destruct H as [H _]. apply Z.eqb_eq in H. lia.
Qed.

(** [x - y] for two positive finite floats with [x >= y] is not negative. *)
Lemma SFsub_nao_negativo (mx : positive) (ex : Z) (my : positive) (ey : Z) :
  bounded prec emax mx ex = true ->
  bounded prec emax my ey = true ->
  SFcompare (S754_finite false mx ex) (S754_finite false my ey) <> Some Lt ->
  sf_nao_negativo
    (SFsub prec emax (S754_finite false mx ex) (S754_finite false my ey)).
Proof.
  intros Bx By C. unfold SFsub. apply binary_normalize_nao_negativo.
  unfold cond_Zopp.
  rewrite !shl_align_valor by lia.
  destruct (bounded_digitos _ _ Bx) as (Dx & Ex & Nx).
  destruct (bounded_digitos _ _ By) as (Dy & Ey & Ny).
  pose proof (digits2_pos_limites mx) as Lx.
  pose proof (digits2_pos_limites my) as Ly.
  simpl in C.
  destruct (Z.compare_spec ex ey) as [E|E|E].
  - subst ey. rewrite Z.min_id, Z.sub_diag. simpl (2 ^ 0).
    change (Pos.compare_cont Eq mx my) with (Pos.compare mx my) in C.
    destruct (Pos.compare_spec mx my) as [F|F|F]; [subst; lia | congruence | lia].
  - congruence.
  - rewrite Z.min_r by lia. rewrite Z.sub_diag. simpl (2 ^ 0).
    specialize (Nx ltac:(lia)).
    assert (P : 2 ^ prec <= Zpos mx * 2 ^ (ex - ey)).
    { rewrite Nx in Lx.
      replace prec with (Z.succ (prec - 1)) at 1 by lia.
      rewrite Z.pow_succ_r by lia.
      assert (2 <= 2 ^ (ex - ey)).
      { replace (ex - ey) with (Z.succ (ex - ey - 1)) by lia.
        rewrite Z.pow_succ_r by lia.
        assert (0 < 2 ^ (ex - ey - 1)) by (apply Z.pow_pos_nonneg; lia). lia. }
      assert (0 < 2 ^ (prec - 1)) by (apply Z.pow_pos_nonneg; lia).
      nia. }
    assert (Q : 2 ^ Zpos (digits2_pos my) <= 2 ^ prec)
      by (apply Z.pow_le_mono_r; lia).
    lia.
Qed.
End Subtracao.

(** ** The methods as case tables *)

Lemma Conta_sacar_eq (v : float) (c : Conta) :
  Conta_sacar v c =
    if (v <=? 0)%float then (false, c, [msg_valor_invalido])
    else if (_saldo c <? v)%float then (false, c, [msg_saldo_insuficiente])
    else (true, com_saldo c (_saldo c - v)%float, [msg_saque_sucesso]).
Proof.
  unfold Conta_sacar, bind, self, print, atribuir, ret.
  destruct (v <=? 0)%float; [reflexivity|].
  destruct (_saldo c <? v)%float; reflexivity.
Qed.

Lemma Conta_depositar_eq (v : float) (c : Conta) :
  Conta_depositar v c =
    if (v <=? 0)%float then (false, c, [msg_valor_invalido])
    else (true, com_saldo c (_saldo c + v)%float, [msg_deposito_sucesso]).
Proof.
  unfold Conta_depositar, bind, print, atribuir, ret.
  destruct (v <=? 0)%float; reflexivity.
Qed.

Lemma com_super_super (cc : ContaCorrente) : com_super cc (super cc) = cc.
Proof. destruct cc; reflexivity. Qed.

Lemma com_base_base (o : Objeto) : com_base o (base o) = o.
Proof. destruct o as [c|cc]; simpl; [|rewrite com_super_super]; reflexivity. Qed.

Lemma base_com_base (o : Objeto) (c : Conta) : base (com_base o c) = c.
Proof. destruct o; reflexivity. Qed.

Lemma ContaCorrente_sacar_eq (v : float) (cc : ContaCorrente) :
  ContaCorrente_sacar v cc =
    if float_gt_int v (_limite cc) then (false, cc, [msg_acima_limite])
    else if _limite_saques cc <=? numero_saques (_historico (super cc))
         then (false, cc, [msg_maximo_saques])
    else if (v <=? 0)%float then (false, cc, [msg_valor_invalido])
    else if (_saldo (super cc) <? v)%float
         then (false, cc, [msg_saldo_insuficiente])
    else (true, com_super cc (com_saldo (super cc) (_saldo (super cc) - v)%float),
          [msg_saque_sucesso]).
Proof.
  unfold ContaCorrente_sacar, bind, self, print, ret, em.
  rewrite Z.geb_leb.
  destruct (float_gt_int v (_limite cc)); [reflexivity|].
  destruct (_limite_saques cc <=? _); [reflexivity|].
  rewrite Conta_sacar_eq.
  destruct (v <=? 0)%float; [rewrite com_super_super; reflexivity|].
  destruct (_saldo (super cc) <? v)%float; [rewrite com_super_super|]; reflexivity.
Qed.

(** [sacar] on any account object: the two gates of a checking account come
    first, then the checks of the base class. *)
Lemma sacar_eq (v : float) (o : Objeto) :
  sacar v o =
    if limite_excedido o v then (false, o, [msg_acima_limite])
    else if maximo_atingido o then (false, o, [msg_maximo_saques])
    else if (v <=? 0)%float then (false, o, [msg_valor_invalido])
    else if (saldo o <? v)%float then (false, o, [msg_saldo_insuficiente])
    else (true, com_base o (com_saldo (base o) (saldo o - v)%float),
          [msg_saque_sucesso]).
Proof.
  destruct o as [c|cc]; unfold sacar, saldo, historico; simpl.
  - rewrite Conta_sacar_eq.
    destruct (v <=? 0)%float; [reflexivity|].
    destruct (_saldo c <? v)%float; reflexivity.
  - rewrite ContaCorrente_sacar_eq.
    destruct (float_gt_int v (_limite cc)); [reflexivity|].
    destruct (_limite_saques cc <=? _); [reflexivity|].
    destruct (v <=? 0)%float; [reflexivity|].
    destruct (_saldo (super cc) <? v)%float; reflexivity.
Qed.

Lemma depositar_eq (v : float) (o : Objeto) :
  depositar v o =
    if (v <=? 0)%float then (false, o, [msg_valor_invalido])
    else (true, com_base o (com_saldo (base o) (saldo o + v)%float),
          [msg_deposito_sucesso]).
Proof.
  unfold depositar, em, saldo. rewrite Conta_depositar_eq.
  destruct (v <=? 0)%float; [rewrite com_base_base|]; reflexivity.
Qed.

(** [registrar]: the account operation, then one record if it returned [True] *)
Lemma registrar_eq (t : Transacao) (agora : string) (o : Objeto) :
  registrar t agora o =
    let '(ok, o1, out) := aplicar t o in
    (tt,
     if ok then com_historico_de o1
                  (mkHistorico (transacoes (historico o1) ++ [registro_de t agora]))
     else o1,
     out).
Proof.
  destruct t as [v|v]; unfold registrar, aplicar, bind, valor;
    [destruct (sacar v o) as [[ok o1] out] | destruct (depositar v o) as [[ok o1] out]];
    destruct ok; unfold em, adicionar_transacao, atribuir, ret; simpl;
    rewrite ?app_nil_r; reflexivity.
Qed.

(** ** Auxiliary facts about the state after a call *)

Lemma estado_de {S A : Type} (a : A) (s : S) (out : list string) :
  estado (a, s, out) = s.
Proof. reflexivity. Qed.

Lemma retorno_de {S A : Type} (a : A) (s : S) (out : list string) :
  retorno (a, s, out) = a.
Proof. reflexivity. Qed.

Lemma saldo_com_base (o : Objeto) (c : Conta) : saldo (com_base o c) = _saldo c.
Proof. unfold saldo. rewrite base_com_base. reflexivity. Qed.

Lemma historico_com_base (o : Objeto) (c : Conta) :
  historico (com_base o c) = _historico c.
Proof. unfold historico. rewrite base_com_base. reflexivity. Qed.

Lemma saldo_com_historico_de (o : Objeto) (h : Historico) :
  saldo (com_historico_de o h) = saldo o.
Proof. unfold com_historico_de. rewrite saldo_com_base. reflexivity. Qed.

Lemma historico_com_historico_de (o : Objeto) (h : Historico) :
  historico (com_historico_de o h) = h.
Proof. unfold com_historico_de. rewrite historico_com_base. reflexivity. Qed.

Lemma sacar_falha (v : float) (o : Objeto) :
  retorno (sacar v o) = false -> estado (sacar v o) = o.
Proof. rewrite sacar_eq. testes; intros H; solve [reflexivity | discriminate H]. Qed.

Lemma depositar_falha (v : float) (o : Objeto) :
  retorno (depositar v o) = false -> estado (depositar v o) = o.
Proof. rewrite depositar_eq. testes; intros H; solve [reflexivity | discriminate H]. Qed.

Lemma aplicar_falha (t : Transacao) (o : Objeto) :
  retorno (aplicar t o) = false -> estado (aplicar t o) = o.
Proof. destruct t; simpl; [apply sacar_falha | apply depositar_falha]. Qed.

Lemma sacar_historico (v : float) (o : Objeto) :
  historico (estado (sacar v o)) = historico o.
Proof.
  rewrite sacar_eq. unfold estado.
  testes; rewrite ?historico_com_base; reflexivity.
Qed.

Lemma depositar_historico (v : float) (o : Objeto) :
  historico (estado (depositar v o)) = historico o.
Proof.
  rewrite depositar_eq. unfold estado.
  testes; rewrite ?historico_com_base; reflexivity.
Qed.

Lemma aplicar_historico (t : Transacao) (o : Objeto) :
  historico (estado (aplicar t o)) = historico o.
Proof. destruct t; simpl; [apply sacar_historico | apply depositar_historico]. Qed.

Lemma sacar_verdadeiro (v : float) (o : Objeto) :
  retorno (sacar v o) = true ->
  limite_excedido o v = false /\ maximo_atingido o = false
  /\ (v <=? 0)%float = false /\ (saldo o <? v)%float = false
  /\ sacar v o
     = (true, com_base o (com_saldo (base o) (saldo o - v)%float),
        [msg_saque_sucesso]).
Proof.
  rewrite sacar_eq.
  destruct (limite_excedido o v); [discriminate|].
  destruct (maximo_atingido o); [discriminate|].
  destruct (v <=? 0)%float; [discriminate|].
  destruct (saldo o <? v)%float; [discriminate|].
  intros _. repeat split.
Qed.

Lemma depositar_verdadeiro (v : float) (o : Objeto) :
  retorno (depositar v o) = true ->
  (v <=? 0)%float = false
  /\ depositar v o
     = (true, com_base o (com_saldo (base o) (saldo o + v)%float),
        [msg_deposito_sucesso]).
Proof.
  rewrite depositar_eq.
  destruct (v <=? 0)%float; [discriminate|].
  intros _. split; reflexivity.
Qed.

Lemma sacar_sucesso (v : float) (o : Objeto) :
  retorno (sacar v o) = true ->
  saldo (estado (sacar v o)) = (saldo o - v)%float.
Proof.
  intros R. destruct (sacar_verdadeiro v o R) as (_ & _ & _ & _ & E).
  rewrite E, estado_de, saldo_com_base. reflexivity.
Qed.

Lemma depositar_sucesso (v : float) (o : Objeto) :
  retorno (depositar v o) = true ->
  saldo (estado (depositar v o)) = (saldo o + v)%float.
Proof.
  intros R. destruct (depositar_verdadeiro v o R) as (_ & E).
  rewrite E, estado_de, saldo_com_base. reflexivity.
Qed.

Lemma app_um_nao_vazio {A : Type} (l : list A) (r : A) : l ++ [r] <> l.
Proof.
  intros H. apply (f_equal (@List.length A)) in H.
  rewrite length_app in H. simpl in H. lia.
Qed.

(** The state left by [registrar], in terms of the account operation. *)
Lemma registrar_estado (t : Transacao) (agora : string) (o : Objeto) :
  estado (registrar t agora o) =
    if retorno (aplicar t o)
    then com_historico_de (estado (aplicar t o))
           (mkHistorico (transacoes (historico o) ++ [registro_de t agora]))
    else o.
Proof.
  rewrite registrar_eq.
  pose proof (aplicar_falha t o) as F. pose proof (aplicar_historico t o) as Hh.
  destruct (aplicar t o) as [[ok o1] out]; unfold retorno, estado in *; simpl in *.
  destruct ok; [rewrite Hh; reflexivity | apply F; reflexivity].
Qed.

Lemma registrar_saida (t : Transacao) (agora : string) (o : Objeto) :
  saida (registrar t agora o) = saida (aplicar t o).
Proof.
  rewrite registrar_eq. destruct (aplicar t o) as [[ok o1] out]. reflexivity.
Qed.

Lemma registrar_saldo (t : Transacao) (agora : string) (o : Objeto) :
  saldo (estado (registrar t agora o)) = saldo (estado (aplicar t o)).
Proof.
  rewrite registrar_estado.
  destruct (retorno (aplicar t o)) eqn:R.
  - apply saldo_com_historico_de.
  - rewrite (aplicar_falha t o R). reflexivity.
Qed.

Lemma registrar_transacoes (t : Transacao) (agora : string) (o : Objeto) :
  transacoes (historico (estado (registrar t agora o))) =
    transacoes (historico o) ++
      (if retorno (aplicar t o) then [registro_de t agora] else []).
Proof.
  rewrite registrar_estado.
  destruct (retorno (aplicar t o)).
  - rewrite historico_com_historico_de. reflexivity.
  - rewrite app_nil_r. reflexivity.
Qed.

(** The class of an account object and its limits never change. *)
Lemma limites_com_base (o : Objeto) (c : Conta) : limites (com_base o c) = limites o.
Proof. destruct o; reflexivity. Qed.

Lemma sacar_limites (v : float) (o : Objeto) : limites (estado (sacar v o)) = limites o.
Proof.
  rewrite sacar_eq. unfold estado.
  testes; rewrite ?limites_com_base; reflexivity.
Qed.

Lemma depositar_limites (v : float) (o : Objeto) :
  limites (estado (depositar v o)) = limites o.
Proof.
  rewrite depositar_eq. unfold estado.
  testes; rewrite ?limites_com_base; reflexivity.
Qed.

Lemma chamar_limites (ch : Chamada) (o : Objeto) : limites (chamar ch o) = limites o.
Proof.
  destruct ch as [v|v|t agora]; simpl.
  - apply sacar_limites.
  - apply depositar_limites.
  - rewrite registrar_estado. destruct (retorno (aplicar t o)); [|reflexivity].
    unfold com_historico_de. rewrite limites_com_base.
    destruct t; simpl; [apply sacar_limites | apply depositar_limites].
Qed.

Lemma executar_limites (chs : list Chamada) :
  forall o : Objeto, limites (executar chs o) = limites o.
Proof.
  induction chs as [|ch chs IH]; intros o; simpl; [reflexivity|].
  rewrite IH. apply chamar_limites.
Qed.

(** The console messages are pairwise distinct, so the line printed tells
    which check rejected a call. *)
Lemma mensagens_distintas :
  NoDup [msg_valor_invalido; msg_saldo_insuficiente; msg_acima_limite;
         msg_maximo_saques; msg_saque_sucesso; msg_deposito_sucesso].
Proof.
  repeat (constructor;
          [ simpl; intros H;
            repeat (destruct H as [H|H];
                    [apply String.eqb_neq in H; [exact H | reflexivity]|]);
            exact H
          | ]).
  constructor.
Qed.

(** ** Balance and NaN *)

(** C1. [float] turns the answer "nan" into NaN, and NaN passes both tests
    of [Conta.sacar] ([valor <= 0] and [valor > self._saldo] are false) as
    well as the ceiling of a checking account.  On a new checking account,
    after a registered deposit of 100, the withdrawal of NaN is accepted and
    leaves a balance that is NaN: it is not [>= 0] any more.  From then on
    the sufficient-funds test stops nothing: a withdrawal of 400 is accepted
    and recorded on an account that received 100 in all. *)
Theorem C1_saldo_deixa_de_ser_nao_negativo :
  saldo (registrar_todas [(Deposito 100, "03-11-2026 12:00:00")]
           (ContaCorrente_nova_conta "12345678900" 1)) = 100%float
  /\ retorno (sacar nan
                (registrar_todas [(Deposito 100, "03-11-2026 12:00:00")]
                   (ContaCorrente_nova_conta "12345678900" 1))) = true
  /\ saldo conta_com_saldo_nan = nan
  /\ (0 <=? saldo conta_com_saldo_nan)%float = false
  /\ sacar 400 conta_com_saldo_nan
     = (true, com_base conta_com_saldo_nan
                (com_saldo (base conta_com_saldo_nan) nan),
        [msg_saque_sucesso])
  /\ transacoes
       (historico (estado (registrar (Saque 400) "03-11-2026 12:02:00"
                             conta_com_saldo_nan)))
     = [mkRegistro "Deposito" 100 "03-11-2026 12:00:00";
        mkRegistro "Saque" nan "03-11-2026 12:01:00";
        mkRegistro "Saque" 400 "03-11-2026 12:02:00"].
Proof. repeat split; vm_compute; reflexivity. Qed.

(** ** Withdrawal and its history record *)

(** C2, as stated, fails: on an account holding 10^18 a registered withdrawal
    of 1 is accepted and its record is appended, but the balance afterwards
    is the balance before: 10^18 - 1 is not a float and rounds back to
    10^18. *)
Lemma C2_contraexemplo :
  saldo conta_com_1e18 = 1e18%float
  /\ retorno (sacar 1 conta_com_1e18) = true
  /\ transacoes
       (historico (estado (registrar (Saque 1) "03-11-2026 12:01:00" conta_com_1e18)))
     = transacoes (historico conta_com_1e18)
       ++ [mkRegistro "Saque" 1 "03-11-2026 12:01:00"]
  /\ saldo (estado (registrar (Saque 1) "03-11-2026 12:01:00" conta_com_1e18))
     = saldo conta_com_1e18.
Proof. repeat split; vm_compute; reflexivity. Qed.

(** C2 (amended). For a withdrawal registered with [registrar] on any
    account: the history afterwards is the old history followed by this
    withdrawal's record exactly when the account accepted the withdrawal
    ([sacar] returned [True]), and then the balance is the float difference
    of the old balance and the amount; otherwise the history is the old
    one.  When the account refuses the withdrawal, the whole account,
    balance and history included, is unchanged. *)
Theorem C2_saque_registrado_sse_aceito :
  forall (o : Objeto) (v : float) (agora : string),
    let o' := estado (registrar (Saque v) agora o) in
    (transacoes (historico o')
       = transacoes (historico o) ++ [registro_de (Saque v) agora]
     <-> retorno (sacar v o) = true)
    /\ (retorno (sacar v o) = true -> saldo o' = (saldo o - v)%float)
    /\ (transacoes (historico o')
          = transacoes (historico o) ++ [registro_de (Saque v) agora]
        \/ historico o' = historico o)
    /\ (retorno (sacar v o) = false -> o' = o).
Proof.
  intros o v agora o'. subst o'.
  rewrite registrar_saldo, registrar_transacoes, registrar_estado.
  change (aplicar (Saque v)) with (sacar v).
  destruct (retorno (sacar v o)) eqn:R.
  - split; [tauto|]. split; [intros _; apply sacar_sucesso, R|].
    split; [left; reflexivity | discriminate].
  - rewrite app_nil_r.
    split; [split; [|discriminate]|].
    + intros H. symmetry in H. destruct (app_um_nao_vazio _ _ H).
    + split; [discriminate|]. split; [right; reflexivity | reflexivity].
Qed.

Lemma C2_saque_registrado_sse_aceito_witness :
  retorno (sacar 30 (Conta_nova_conta "12345678900" 1)) = false
  /\ estado (registrar (Saque 30) "03-11-2026 10:00:00"
               (Conta_nova_conta "12345678900" 1))
     = Conta_nova_conta "12345678900" 1
  /\ retorno (sacar 40 conta_do_cenario_com_100) = true
  /\ saldo (estado (registrar (Saque 40) "03-11-2026 10:01:00"
                      conta_do_cenario_com_100))
     = (saldo conta_do_cenario_com_100 - 40)%float.
Proof.
  assert (H : retorno (sacar 30 (Conta_nova_conta "12345678900" 1)) = false)
    by (vm_compute; reflexivity).
  assert (K : retorno (sacar 40 conta_do_cenario_com_100) = true)
    by (vm_compute; reflexivity).
  split; [exact H|].
  split; [apply (proj2 (proj2 (proj2 (C2_saque_registrado_sse_aceito
                         (Conta_nova_conta "12345678900" 1) 30
                         "03-11-2026 10:00:00"))) H)|].
  split; [exact K|].
  apply (proj1 (proj2 (C2_saque_registrado_sse_aceito conta_do_cenario_com_100 40
                         "03-11-2026 10:01:00")) K).
Defined.

(** ** The gates of a checking account *)

(** C3, as stated, fails: with three withdrawals recorded (the default
    maximum) and a balance of 700, a withdrawal of 600 is refused by the
    ceiling gate, which comes first, and the line printed is the one of the
    ceiling, not the one of the maximum number of withdrawals. *)
Lemma C3_contraexemplo :
  limites conta_com_tres_saques = Some (500, 3)
  /\ numero_saques (historico conta_com_tres_saques) = 3
  /\ saldo conta_com_tres_saques = 700%float
  /\ sacar 600 conta_com_tres_saques
     = (false, conta_com_tres_saques, [msg_acima_limite])
  /\ saida (sacar 600 conta_com_tres_saques) <> [msg_maximo_saques].
Proof.
  repeat split; try (vm_compute; reflexivity).
  intros H. vm_compute in H. discriminate H.
Qed.

(** C3 (amended). On a checking account whose history holds exactly as many
    withdrawal records as the configured maximum, every further withdrawal,
    for every amount and balance, returns [False] and leaves the account
    unchanged; the line printed is the one of the maximum number of
    withdrawals when the amount does not exceed the ceiling, and the one of
    the ceiling when it does.  With the default limits the maximum is 3.  A
    withdrawal that the account rejects, whatever the gate, adds nothing to
    the count of withdrawals in the history. *)
Theorem C3_maximo_de_saques :
  (forall (cc : ContaCorrente) (v : float),
      numero_saques (historico (UmaContaCorrente cc)) = _limite_saques cc ->
      sacar v (UmaContaCorrente cc)
      = (false, UmaContaCorrente cc,
         [if float_gt_int v (_limite cc) then msg_acima_limite
          else msg_maximo_saques]))
  /\ (forall (cliente : string) (numero : Z) (chs : list Chamada) (v : float),
      let o := executar chs (ContaCorrente_nova_conta cliente numero) in
      numero_saques (historico o) = 3 ->
      sacar v o
      = (false, o,
         [if float_gt_int v 500 then msg_acima_limite else msg_maximo_saques]))
  /\ (forall (o : Objeto) (v : float) (agora : string),
      retorno (sacar v o) = false ->
      numero_saques (historico (estado (sacar v o))) = numero_saques (historico o)
      /\ numero_saques (historico (estado (registrar (Saque v) agora o)))
         = numero_saques (historico o)).
Proof.
  split; [|split].
  - intros cc v H. rewrite sacar_eq. simpl limite_excedido. simpl maximo_atingido.
    destruct (float_gt_int v (_limite cc)); [reflexivity|].
    rewrite H, Z.leb_refl. reflexivity.
  - intros cliente numero chs v o H.
    assert (L : limites o = Some (500, 3)).
    { unfold o. rewrite executar_limites. reflexivity. }
    destruct o as [c|cc]; [discriminate L|]. simpl in L.
    injection L as L1 L2.
    rewrite sacar_eq. simpl limite_excedido. simpl maximo_atingido.
    rewrite L1, L2. destruct (float_gt_int v 500); [reflexivity|].
    rewrite H. reflexivity.
  - intros o v agora H. rewrite sacar_historico. split; [reflexivity|].
    rewrite registrar_estado. change (aplicar (Saque v)) with (sacar v).
    rewrite H. reflexivity.
Qed.

Lemma C3_maximo_de_saques_witness :
  numero_saques (historico (UmaContaCorrente cc_no_maximo))
  = _limite_saques cc_no_maximo
  /\ sacar 1 (UmaContaCorrente cc_no_maximo)
     = (false, UmaContaCorrente cc_no_maximo, [msg_maximo_saques])
  /\ numero_saques (historico conta_com_tres_saques) = 3
  /\ sacar 1 conta_com_tres_saques
     = (false, conta_com_tres_saques, [msg_maximo_saques])
  /\ retorno (sacar 1 conta_com_tres_saques) = false
  /\ numero_saques
       (historico (estado (registrar (Saque 1) "03-11-2026 09:04:00"
                             conta_com_tres_saques))) = 3.
Proof.
  assert (H : numero_saques (historico conta_com_tres_saques) = 3)
    by (vm_compute; reflexivity).
  assert (R : retorno (sacar 1 conta_com_tres_saques) = false)
    by (vm_compute; reflexivity).
  assert (M : numero_saques (historico (UmaContaCorrente cc_no_maximo))
              = _limite_saques cc_no_maximo)
    by (vm_compute; reflexivity).
  split; [exact M|].
  split; [exact (proj1 C3_maximo_de_saques cc_no_maximo 1%float M)|].
  split; [exact H|]. split; [|split; [exact R|]].
  - exact (proj1 (proj2 C3_maximo_de_saques) "12345678900" 1
             [ChamaRegistrar (Deposito 1000) "03-11-2026 09:00:00";
              ChamaRegistrar (Saque 100) "03-11-2026 09:01:00";
              ChamaRegistrar (Saque 100) "03-11-2026 09:02:00";
              ChamaRegistrar (Saque 100) "03-11-2026 09:03:00"] 1%float H).
  - rewrite (proj2 (proj2 (proj2 C3_maximo_de_saques) conta_com_tres_saques 1%float
                      "03-11-2026 09:04:00" R)).
    exact H.
Defined.

(** C4. On every checking account, a withdrawal of more than the ceiling
    returns [False], prints the line of the ceiling and leaves the account
    (balance and history) unchanged, whatever the balance, the number of
    withdrawals recorded and the sign of the amount: the ceiling is tested
    before the count of withdrawals and before the checks of the base
    class.  Registering such a withdrawal leaves the account unchanged too.
    With the default limits the ceiling is 500. *)
Theorem C4_teto_de_saque :
  (forall (cc : ContaCorrente) (v : float) (agora : string),
      float_gt_int v (_limite cc) = true ->
      sacar v (UmaContaCorrente cc)
      = (false, UmaContaCorrente cc, [msg_acima_limite])
      /\ estado (registrar (Saque v) agora (UmaContaCorrente cc))
         = UmaContaCorrente cc
      /\ saida (registrar (Saque v) agora (UmaContaCorrente cc))
         = [msg_acima_limite])
  /\ (forall (cliente : string) (numero : Z) (chs : list Chamada) (v : float),
      let o := executar chs (ContaCorrente_nova_conta cliente numero) in
      float_gt_int v 500 = true -> sacar v o = (false, o, [msg_acima_limite]))
  /\ msg_acima_limite <> msg_maximo_saques
  /\ msg_acima_limite <> msg_saldo_insuficiente
  /\ msg_acima_limite <> msg_valor_invalido.
Proof.
  assert (G : forall cc v, float_gt_int v (_limite cc) = true ->
                sacar v (UmaContaCorrente cc)
                = (false, UmaContaCorrente cc, [msg_acima_limite])).
  { intros cc v H. rewrite sacar_eq. simpl limite_excedido.
    rewrite H. reflexivity. }
  split; [|split; [|repeat split; apply String.eqb_neq; reflexivity]].
  - intros cc v agora H. split; [apply G, H|].
    rewrite registrar_estado, registrar_saida.
    change (aplicar (Saque v)) with (sacar v).
    rewrite (G cc v H). split; reflexivity.
  - intros cliente numero chs v o H.
    assert (L : limites o = Some (500, 3)).
    { unfold o. rewrite executar_limites. reflexivity. }
    destruct o as [c|cc]; [discriminate L|]. simpl in L.
    injection L as L1 L2. apply G. rewrite L1. exact H.
Qed.

Lemma C4_teto_de_saque_witness :
  sacar 600 conta_com_tres_saques
  = (false, conta_com_tres_saques, [msg_acima_limite])
  /\ sacar 501 (UmaContaCorrente (ContaCorrente_init 1 "12345678900" 500 3))
     = (false, UmaContaCorrente (ContaCorrente_init 1 "12345678900" 500 3),
        [msg_acima_limite]).
Proof.
  split.
  - apply (proj1 (proj2 C4_teto_de_saque) "12345678900" 1
             [ChamaRegistrar (Deposito 1000) "03-11-2026 09:00:00";
              ChamaRegistrar (Saque 100) "03-11-2026 09:01:00";
              ChamaRegistrar (Saque 100) "03-11-2026 09:02:00";
              ChamaRegistrar (Saque 100) "03-11-2026 09:03:00"] 600%float).
    reflexivity.
  - apply (proj1 C4_teto_de_saque
             (ContaCorrente_init 1 "12345678900" 500 3) 501%float
             "03-11-2026 09:00:00").
    reflexivity.
Defined.

(** C10. On a checking account whose history already holds the maximum
    number of withdrawal records (or more), a withdrawal of an amount that
    does not exceed the ceiling, in particular an amount that is zero or
    negative, is refused with the line of the maximum number of
    withdrawals, and the account is unchanged, although the base class on
    its own would refuse a non-positive amount as an invalid value: the base
    check is only reached after both gates of the checking account. *)
Theorem C10_maximo_antes_de_valor_invalido :
  forall (cc : ContaCorrente) (v : float),
    float_gt_int v (_limite cc) = false ->
    _limite_saques cc <= numero_saques (historico (UmaContaCorrente cc)) ->
    sacar v (UmaContaCorrente cc)
    = (false, UmaContaCorrente cc, [msg_maximo_saques])
    /\ ((v <=? 0)%float = true ->
        Conta_sacar v (super cc) = (false, super cc, [msg_valor_invalido]))
    /\ msg_maximo_saques <> msg_valor_invalido.
Proof.
  intros cc v Hv Hn. split; [|split].
  - rewrite sacar_eq. simpl limite_excedido. simpl maximo_atingido.
    apply Z.leb_le in Hn. rewrite Hv, Hn. reflexivity.
  - intros H0. rewrite Conta_sacar_eq, H0. reflexivity.
  - apply String.eqb_neq. reflexivity.
Qed.

Lemma C10_maximo_antes_de_valor_invalido_witness :
  float_gt_int (-5) (_limite cc_no_maximo) = false
  /\ _limite_saques cc_no_maximo
     <= numero_saques (historico (UmaContaCorrente cc_no_maximo))
  /\ sacar (-5) (UmaContaCorrente cc_no_maximo)
     = (false, UmaContaCorrente cc_no_maximo, [msg_maximo_saques])
  /\ Conta_sacar (-5) (super cc_no_maximo)
     = (false, super cc_no_maximo, [msg_valor_invalido]).
Proof.
  assert (H1 : float_gt_int (-5) (_limite cc_no_maximo) = false)
    by (vm_compute; reflexivity).
  assert (H2 : _limite_saques cc_no_maximo
               <= numero_saques (historico (UmaContaCorrente cc_no_maximo)))
    by (vm_compute; discriminate).
  split; [exact H1|]. split; [exact H2|].
  destruct (C10_maximo_antes_de_valor_invalido cc_no_maximo (-5)%float H1 H2)
    as (R1 & R2 & _).
  split; [exact R1|]. apply R2. reflexivity.
Defined.

(** ** The scenario of a new checking account *)

(** C5, as stated, fails: after deposit(100), withdraw(50), the refused
    withdraw(600) and one more withdraw(50), the balance is 0 with two
    withdrawals recorded, so the second of the "three further" withdraw(50)
    is refused for lack of funds; it leaves the account as it is, and a
    later withdraw(1) is refused for lack of funds as well, not for the
    maximum number of withdrawals. *)
Lemma C5_contraexemplo :
  saldo conta_do_cenario = 0%float
  /\ numero_saques (historico conta_do_cenario) = 2
  /\ sacar 50 conta_do_cenario
     = (false, conta_do_cenario, [msg_saldo_insuficiente])
  /\ sacar 1 conta_do_cenario
     = (false, conta_do_cenario, [msg_saldo_insuficiente])
  /\ saida (sacar 1 conta_do_cenario) <> [msg_maximo_saques].
Proof.
  repeat split; try (vm_compute; reflexivity).
  intros H. vm_compute in H. discriminate H.
Qed.

(** C5 (amended). On a new checking account (balance 0, default limits):
    deposit(100) succeeds, balance 100, history [Deposito 100];
    withdraw(50) succeeds, balance 50, history [Deposito 100, Saque 50];
    withdraw(600) is refused by the ceiling, balance and history unchanged;
    of three further withdraw(50) only the first succeeds (balance 0,
    history [Deposito 100, Saque 50, Saque 50]) and the other two are
    refused for lack of funds and change nothing; a subsequent withdraw(1)
    is refused for lack of funds too, two withdrawals being recorded.
    Whenever three withdrawals are recorded on such an account, withdraw(1)
    is refused with the line of the maximum number of withdrawals. *)
Theorem C5_cenario_conta_corrente :
  (forall (cliente : string) (numero : Z) (t1 t2 t3 t4 t5 t6 t7 : string),
      let o0 := ContaCorrente_nova_conta cliente numero in
      let o1 := estado (registrar (Deposito 100) t1 o0) in
      let o2 := estado (registrar (Saque 50) t2 o1) in
      let o3 := estado (registrar (Saque 600) t3 o2) in
      let o4 := estado (registrar (Saque 50) t4 o3) in
      let o5 := estado (registrar (Saque 50) t5 o4) in
      let o6 := estado (registrar (Saque 50) t6 o5) in
      let o7 := estado (registrar (Saque 1) t7 o6) in
      saldo o0 = 0%float
      /\ (retorno (depositar 100 o0) = true /\ saldo o1 = 100%float
          /\ transacoes (historico o1) = [mkRegistro "Deposito" 100 t1])
      /\ (retorno (sacar 50 o1) = true /\ saldo o2 = 50%float
          /\ transacoes (historico o2)
             = [mkRegistro "Deposito" 100 t1; mkRegistro "Saque" 50 t2])
      /\ (sacar 600 o2 = (false, o2, [msg_acima_limite]) /\ o3 = o2)
      /\ (retorno (sacar 50 o3) = true /\ saldo o4 = 0%float
          /\ transacoes (historico o4)
             = [mkRegistro "Deposito" 100 t1; mkRegistro "Saque" 50 t2;
                mkRegistro "Saque" 50 t4])
      /\ (sacar 50 o4 = (false, o4, [msg_saldo_insuficiente]) /\ o5 = o4)
      /\ (sacar 50 o5 = (false, o5, [msg_saldo_insuficiente]) /\ o6 = o5)
      /\ (sacar 1 o6 = (false, o6, [msg_saldo_insuficiente]) /\ o7 = o6
          /\ numero_saques (historico o6) = 2))
  /\ (forall (cliente : string) (numero : Z) (chs : list Chamada),
      let o := executar chs (ContaCorrente_nova_conta cliente numero) in
      numero_saques (historico o) = 3 ->
      sacar 1 o = (false, o, [msg_maximo_saques])).
Proof.
  split.
  - intros. repeat split; vm_compute; reflexivity.
  - intros cliente numero chs o H.
    assert (L : limites o = Some (500, 3)).
    { unfold o. rewrite executar_limites. reflexivity. }
    destruct o as [c|cc]; [discriminate L|]. simpl in L.
    injection L as L1 L2.
    rewrite sacar_eq. simpl limite_excedido. simpl maximo_atingido.
    rewrite L1, L2, H. reflexivity.
Qed.

Lemma C5_cenario_conta_corrente_witness :
  numero_saques (historico conta_com_tres_saques) = 3
  /\ sacar 1 conta_com_tres_saques
     = (false, conta_com_tres_saques, [msg_maximo_saques]).
Proof.
  assert (H : numero_saques (historico conta_com_tres_saques) = 3)
    by (vm_compute; reflexivity).
  split; [exact H|].
  exact (proj2 C5_cenario_conta_corrente "12345678900" 1
           [ChamaRegistrar (Deposito 1000) "03-11-2026 09:00:00";
            ChamaRegistrar (Saque 100) "03-11-2026 09:01:00";
            ChamaRegistrar (Saque 100) "03-11-2026 09:02:00";
            ChamaRegistrar (Saque 100) "03-11-2026 09:03:00"] H).
Defined.

(** ** Deposits *)

(** C6, as stated, fails: on an account holding 2^53 a deposit of 1 returns
    [True] (and is recorded when registered) but the balance afterwards is
    the balance before, not 1 more: 2^53 + 1 is not a float and rounds back
    to 2^53. *)
Lemma C6_contraexemplo :
  saldo conta_com_2p53 = 9007199254740992%float
  /\ (0 <? 1)%float = true
  /\ retorno (depositar 1 conta_com_2p53) = true
  /\ saldo (estado (depositar 1 conta_com_2p53)) = saldo conta_com_2p53
  /\ transacoes
       (historico (estado (registrar (Deposito 1) "03-11-2026 12:01:00"
                             conta_com_2p53)))
     = transacoes (historico conta_com_2p53)
       ++ [mkRegistro "Deposito" 1 "03-11-2026 12:01:00"].
Proof. repeat split; vm_compute; reflexivity. Qed.

(** C6 (amended). On every account: a deposit of [a > 0] returns [True] and
    makes the balance the float sum of the old balance and [a] (registered
    through [Deposito.registrar], it also appends its record); a deposit of
    [a <= 0] returns [False], prints the invalid-value line and leaves the
    account, balance and history included, unchanged, also when
    registered. *)
Theorem C6_deposito :
  forall (o : Objeto) (a : float) (agora : string),
    ((0 <? a)%float = true ->
       retorno (depositar a o) = true
       /\ saldo (estado (depositar a o)) = (saldo o + a)%float
       /\ saldo (estado (registrar (Deposito a) agora o)) = (saldo o + a)%float
       /\ transacoes (historico (estado (registrar (Deposito a) agora o)))
          = transacoes (historico o) ++ [registro_de (Deposito a) agora])
    /\ ((a <=? 0)%float = true ->
       depositar a o = (false, o, [msg_valor_invalido])
       /\ estado (registrar (Deposito a) agora o) = o
       /\ historico (estado (registrar (Deposito a) agora o)) = historico o
       /\ saldo (estado (registrar (Deposito a) agora o)) = saldo o).
Proof.
  intros o a agora. split; intros H.
  - assert (R : retorno (depositar a o) = true).
    { rewrite depositar_eq, (ltb_leb_false _ _ H). reflexivity. }
    pose proof (depositar_sucesso a o R) as S.
    rewrite registrar_saldo, registrar_transacoes.
    change (aplicar (Deposito a)) with (depositar a).
    rewrite R. auto.
  - assert (D : depositar a o = (false, o, [msg_valor_invalido])).
    { rewrite depositar_eq, H. reflexivity. }
    assert (E : estado (registrar (Deposito a) agora o) = o).
    { rewrite registrar_estado. change (aplicar (Deposito a)) with (depositar a).
      rewrite D. reflexivity. }
    rewrite E. auto.
Qed.

Lemma C6_deposito_witness :
  ((0 <? 100)%float = true /\ (-3 <=? 0)%float = true)
  /\ retorno (depositar 100 (Conta_nova_conta "12345678900" 1)) = true
  /\ saldo (estado (depositar 100 (Conta_nova_conta "12345678900" 1)))
     = (saldo (Conta_nova_conta "12345678900" 1) + 100)%float
  /\ depositar (-3) (Conta_nova_conta "12345678900" 1)
     = (false, Conta_nova_conta "12345678900" 1, [msg_valor_invalido]).
Proof.
  assert (P : (0 <? 100)%float = true) by reflexivity.
  assert (N : (-3 <=? 0)%float = true) by reflexivity.
  split; [exact (conj P N)|].
  destruct (C6_deposito (Conta_nova_conta "12345678900" 1) 100%float
              "03-11-2026 10:00:00") as [Hp _].
  destruct (C6_deposito (Conta_nova_conta "12345678900" 1) (-3)%float
              "03-11-2026 10:00:00") as [_ Hn].
  destruct (Hp P) as (R & S & _). destruct (Hn N) as (D & _).
  split; [exact R|]. split; [exact S | exact D].
Defined.

(** ** Withdrawals on a plain account *)

(** C7, as stated, fails: on a plain account holding 10^18 a withdrawal of 1
    is positive and within the balance, returns [True], and leaves the
    account exactly as it was: the balance has not gone down by 1. *)
Lemma C7_contraexemplo :
  (0 <? 1)%float = true /\ (1 <=? 1e18)%float = true
  /\ Conta_sacar 1 (mkConta 1e18 1 "0001" "12345678900" Historico_init)
     = (true, mkConta 1e18 1 "0001" "12345678900" Historico_init,
        [msg_saque_sucesso]).
Proof. repeat split; vm_compute; reflexivity. Qed.

(** C7 (amended). [Conta.sacar] checks in this order: an amount [<= 0]
    returns [False] with the invalid-value line, whatever the balance;
    otherwise an amount above the balance returns [False] with the
    insufficient-funds line; otherwise, for a positive amount within the
    balance, the balance becomes the float difference of the old balance and
    the amount, the other attributes are untouched, and the call returns
    [True].  The account is unchanged in both failures.  A plain account
    object dispatches [sacar] to this method. *)
Theorem C7_ordem_das_verificacoes :
  forall (c : Conta) (v : float),
    ((v <=? 0)%float = true -> Conta_sacar v c = (false, c, [msg_valor_invalido]))
    /\ ((0 <? v)%float = true -> (_saldo c <? v)%float = true ->
        Conta_sacar v c = (false, c, [msg_saldo_insuficiente]))
    /\ ((0 <? v)%float = true -> (v <=? _saldo c)%float = true ->
        Conta_sacar v c
        = (true,
           mkConta (_saldo c - v) (_numero c) (_agencia c) (_cliente c)
             (_historico c),
           [msg_saque_sucesso]))
    /\ sacar v (UmaConta c)
       = (retorno (Conta_sacar v c), UmaConta (estado (Conta_sacar v c)),
          saida (Conta_sacar v c))
    /\ msg_valor_invalido <> msg_saldo_insuficiente.
Proof.
  intros c v. rewrite Conta_sacar_eq.
  repeat split.
  - intros H. rewrite H. reflexivity.
  - intros H1 H2. rewrite (ltb_leb_false _ _ H1), H2. reflexivity.
  - intros H1 H2. rewrite (ltb_leb_false _ _ H1), (leb_ltb_false _ _ H2).
    reflexivity.
  - unfold sacar. rewrite Conta_sacar_eq.
    destruct (v <=? 0)%float; [reflexivity|].
    destruct (_saldo c <? v)%float; reflexivity.
  - apply String.eqb_neq. reflexivity.
Qed.

Lemma C7_ordem_das_verificacoes_witness :
  Conta_sacar 0 (mkConta 80 1 "0001" "12345678900" Historico_init)
  = (false, mkConta 80 1 "0001" "12345678900" Historico_init, [msg_valor_invalido])
  /\ Conta_sacar 81 (mkConta 80 1 "0001" "12345678900" Historico_init)
     = (false, mkConta 80 1 "0001" "12345678900" Historico_init,
        [msg_saldo_insuficiente])
  /\ Conta_sacar 80 (mkConta 80 1 "0001" "12345678900" Historico_init)
     = (true, mkConta (80 - 80) 1 "0001" "12345678900" Historico_init,
        [msg_saque_sucesso]).
Proof.
  split; [|split].
  - apply (proj1 (C7_ordem_das_verificacoes _ 0%float)). reflexivity.
  - apply (proj1 (proj2 (C7_ordem_das_verificacoes _ 81%float))); reflexivity.
  - apply (proj1 (proj2 (proj2 (C7_ordem_das_verificacoes
             (mkConta 80 1 "0001" "12345678900" Historico_init) 80%float))));
      reflexivity.
Defined.

(** ** Failures change nothing *)

(** C8. [sacar] and [depositar] are total on every account object, plain or
    checking: a call always ends by returning a boolean (nothing is raised).
    Whenever the boolean is [False] the account after the call is the account
    before it, every attribute included, the call has printed exactly one of
    the failure lines, and a transaction registered on top of the failed call
    leaves the account unchanged as well. *)
Theorem C8_falha_sem_mutacao :
  forall (o : Objeto) (v : float) (agora : string),
    (retorno (sacar v o) = false ->
       estado (sacar v o) = o
       /\ estado (registrar (Saque v) agora o) = o
       /\ exists m, saida (sacar v o) = [m] /\ In m mensagens_de_falha)
    /\ (retorno (depositar v o) = false ->
       estado (depositar v o) = o
       /\ estado (registrar (Deposito v) agora o) = o
       /\ saida (depositar v o) = [msg_valor_invalido]).
Proof.
  intros o v agora. split; intros H.
  - split; [apply sacar_falha, H|].
    split; [rewrite registrar_estado; change (aplicar (Saque v)) with (sacar v);
            rewrite H; reflexivity|].
    revert H. rewrite sacar_eq. unfold mensagens_de_falha.
    destruct (limite_excedido o v); [intros _; eexists; split; [reflexivity|simpl; auto]|].
    destruct (maximo_atingido o); [intros _; eexists; split; [reflexivity|simpl; auto]|].
    destruct (v <=? 0)%float; [intros _; eexists; split; [reflexivity|simpl; auto]|].
    destruct (saldo o <? v)%float; [intros _; eexists; split; [reflexivity|simpl; auto]|].
    discriminate.
  - split; [apply depositar_falha, H|].
    split; [rewrite registrar_estado; change (aplicar (Deposito v)) with (depositar v);
            rewrite H; reflexivity|].
    revert H. rewrite depositar_eq.
    destruct (v <=? 0)%float; [reflexivity | discriminate].
Qed.

Lemma C8_falha_sem_mutacao_witness :
  retorno (sacar 30 (Conta_nova_conta "12345678900" 1)) = false
  /\ retorno (depositar 0 conta_com_tres_saques) = false
  /\ estado (sacar 30 (Conta_nova_conta "12345678900" 1))
     = Conta_nova_conta "12345678900" 1
  /\ estado (depositar 0 conta_com_tres_saques) = conta_com_tres_saques.
Proof.
  assert (S : retorno (sacar 30 (Conta_nova_conta "12345678900" 1)) = false)
    by (vm_compute; reflexivity).
  assert (D : retorno (depositar 0 conta_com_tres_saques) = false)
    by (vm_compute; reflexivity).
  split; [exact S|]. split; [exact D|]. split.
  - exact (proj1 (proj1 (C8_falha_sem_mutacao _ 30%float "03-11-2026 10:00:00") S)).
  - exact (proj1 (proj2 (C8_falha_sem_mutacao _ 0%float "03-11-2026 10:00:00") D)).
Defined.

(** ** The history *)

Lemma registrar_todas_transacoes (ts : list (Transacao * string)) :
  forall o : Objeto,
    transacoes (historico (registrar_todas ts o))
    = transacoes (historico o) ++ registros_bem_sucedidos ts o.
Proof.
  induction ts as [|[t agora] ts IH]; intros o; simpl.
  - rewrite app_nil_r. reflexivity.
  - rewrite IH, registrar_transacoes.
    destruct (retorno (aplicar t o)).
    + rewrite <- app_assoc. reflexivity.
    + rewrite app_nil_r. reflexivity.
Qed.

Lemma registrar_todas_app (ts1 ts2 : list (Transacao * string)) (o : Objeto) :
  registrar_todas (ts1 ++ ts2) o = registrar_todas ts2 (registrar_todas ts1 o).
Proof. unfold registrar_todas. apply fold_left_app. Qed.

(** C9. Registering any sequence of transactions on an account leaves as
    history the history before followed by the records of exactly those
    transactions whose account operation returned [True], one record each,
    in the order of registration: nothing is reordered, removed or
    duplicated, and a failed attempt leaves no record.  The history after a
    prefix of the sequence is a prefix of the history after the whole.  A
    single [registrar] appends one record on success and nothing otherwise,
    and the account's own [sacar] and [depositar] never touch the history. *)
Theorem C9_historico_so_acrescenta :
  (forall (ts : list (Transacao * string)) (o : Objeto),
      transacoes (historico (registrar_todas ts o))
      = transacoes (historico o) ++ registros_bem_sucedidos ts o)
  /\ (forall (ts1 ts2 : list (Transacao * string)) (o : Objeto),
      transacoes (historico (registrar_todas (ts1 ++ ts2) o))
      = transacoes (historico (registrar_todas ts1 o))
        ++ registros_bem_sucedidos ts2 (registrar_todas ts1 o))
  /\ (forall (t : Transacao) (agora : string) (o : Objeto),
      transacoes (historico (estado (registrar t agora o)))
      = transacoes (historico o)
        ++ (if retorno (aplicar t o) then [registro_de t agora] else []))
  /\ (forall (v : float) (o : Objeto),
      historico (estado (sacar v o)) = historico o
      /\ historico (estado (depositar v o)) = historico o).
Proof.
  split; [|split; [|split]].
  - intros ts o. apply registrar_todas_transacoes.
  - intros ts1 ts2 o. rewrite registrar_todas_app. apply registrar_todas_transacoes.
  - intros t agora o. apply registrar_transacoes.
  - intros v o. split; [apply sacar_historico | apply depositar_historico].
Qed.

(** * Further properties of the accounts *)

(** ** Replaying the statement *)

Lemma registrar_saldo_reposto (t : Transacao) (agora : string) (o : Objeto) :
  saldo (estado (registrar t agora o))
  = saldo_reposto (saldo o)
      (if retorno (aplicar t o) then [registro_de t agora] else []).
Proof.
  rewrite registrar_saldo.
  destruct (retorno (aplicar t o)) eqn:R.
  - destruct t as [v|v]; simpl in R; simpl aplicar.
    + rewrite (sacar_sucesso v o R). reflexivity.
    + rewrite (depositar_sucesso v o R). reflexivity.
  - rewrite (aplicar_falha t o R). reflexivity.
Qed.

Lemma registrar_todas_saldo (ts : list (Transacao * string)) :
  forall o : Objeto,
    saldo (registrar_todas ts o)
    = saldo_reposto (saldo o) (registros_bem_sucedidos ts o).
Proof.
  induction ts as [|[t agora] ts IH]; intros o; simpl; [reflexivity|].
  rewrite IH, registrar_saldo_reposto.
  destruct (retorno (aplicar t o)); reflexivity.
Qed.

(** X1. When every movement of an account goes through [registrar], the
    history tells the balance: replaying the records written, first one
    first, with the float subtraction of [sacar] for a "Saque" and the float
    addition of [depositar] for a "Deposito", from the balance before,
    gives exactly the balance after.  On a newly created account, plain or
    checking, the balance is always the history replayed from 0. *)
Theorem X1_saldo_e_o_extrato_reposto :
  (forall (ts : list (Transacao * string)) (o : Objeto),
      saldo (registrar_todas ts o)
      = saldo_reposto (saldo o) (registros_bem_sucedidos ts o))
  /\ (forall (cliente : string) (numero : Z) (ts : list (Transacao * string)),
      saldo (registrar_todas ts (Conta_nova_conta cliente numero))
      = saldo_reposto 0
          (transacoes (historico (registrar_todas ts (Conta_nova_conta cliente numero))))
      /\ saldo (registrar_todas ts (ContaCorrente_nova_conta cliente numero))
         = saldo_reposto 0
             (transacoes
                (historico (registrar_todas ts (ContaCorrente_nova_conta cliente numero))))).
Proof.
  split; [exact (fun ts o => registrar_todas_saldo ts o)|].
  intros cliente numero ts.
  split; rewrite registrar_todas_saldo, registrar_todas_transacoes; reflexivity.
Qed.

(** ** The count of withdrawals *)

Lemma limite_excedido_limites (o : Objeto) (v : float) :
  limite_excedido o v
  = match limites o with Some (l, _) => float_gt_int v l | None => false end.
Proof. destruct o; reflexivity. Qed.

Lemma maximo_atingido_limites (o : Objeto) :
  maximo_atingido o
  = match limites o with
    | Some (_, m) => m <=? numero_saques (historico o)
    | None => false
    end.
Proof. destruct o; reflexivity. Qed.

Lemma numero_saques_app (l : list Registro) (r : Registro) :
  numero_saques (mkHistorico (l ++ [r]))
  = numero_saques (mkHistorico l)
    + (if String.eqb (tipo r) Saque_name then 1 else 0).
Proof.
  unfold numero_saques, transacoes. simpl.
  rewrite filter_app, length_app. simpl.
  destruct (String.eqb (tipo r) Saque_name); simpl; lia.
Qed.

Lemma numero_saques_so_transacoes (h1 h2 : Historico) :
  transacoes h1 = transacoes h2 -> numero_saques h1 = numero_saques h2.
Proof. unfold numero_saques. intros E. rewrite E. reflexivity. Qed.

Lemma registrar_numero_saques (t : Transacao) (agora : string) (o : Objeto) :
  numero_saques (historico (estado (registrar t agora o)))
  = numero_saques (historico o)
    + (if retorno (aplicar t o) && String.eqb (class_name t) Saque_name
       then 1 else 0).
Proof.
  pose proof (registrar_transacoes t agora o) as E.
  destruct (retorno (aplicar t o)); simpl.
  - rewrite (numero_saques_so_transacoes _
               (mkHistorico (transacoes (historico o) ++ [registro_de t agora])) E).
    rewrite numero_saques_app. simpl.
    rewrite (numero_saques_so_transacoes (mkHistorico (transacoes (historico o)))
               (historico o) eq_refl).
    reflexivity.
  - rewrite app_nil_r in E.
    rewrite (numero_saques_so_transacoes _ _ E). lia.
Qed.

Lemma registrar_limites (t : Transacao) (agora : string) (o : Objeto) :
  limites (estado (registrar t agora o)) = limites o.
Proof. exact (chamar_limites (ChamaRegistrar t agora) o). Qed.

(** X2. Registering a transaction raises the number of withdrawals counted
    in the history by one when it is a withdrawal that the account accepted,
    and leaves it as it is otherwise: deposits and refused withdrawals use up
    nothing of the allowance, and neither do direct calls of [sacar] and
    [depositar], which write no record. *)
Theorem X2_contagem_de_saques :
  (forall (t : Transacao) (agora : string) (o : Objeto),
      numero_saques (historico (estado (registrar t agora o)))
      = numero_saques (historico o)
        + (if retorno (aplicar t o) && String.eqb (class_name t) Saque_name
           then 1 else 0))
  /\ (forall (v : float) (agora : string) (o : Objeto),
      numero_saques (historico (estado (registrar (Deposito v) agora o)))
      = numero_saques (historico o))
  /\ (forall (v : float) (o : Objeto),
      numero_saques (historico (estado (sacar v o))) = numero_saques (historico o)
      /\ numero_saques (historico (estado (depositar v o)))
         = numero_saques (historico o)).
Proof.
  split; [exact registrar_numero_saques|]. split.
  - intros v agora o. rewrite registrar_numero_saques. simpl.
    rewrite andb_false_r. lia.
  - intros v o. rewrite sacar_historico, depositar_historico. split; reflexivity.
Qed.

Lemma chamar_dentro_do_maximo (ch : Chamada) (o : Objeto) (l m : Z) :
  limites o = Some (l, m) ->
  numero_saques (historico o) <= m ->
  numero_saques (historico (chamar ch o)) <= m.
Proof.
  intros L H. destruct ch as [v|v|t agora]; simpl.
  - rewrite sacar_historico. exact H.
  - rewrite depositar_historico. exact H.
  - rewrite registrar_numero_saques.
    destruct (retorno (aplicar t o)) eqn:R; simpl; [|lia].
    destruct t as [v|v]; simpl in *; [|lia].
    destruct (sacar_verdadeiro v o R) as (_ & M & _).
    rewrite maximo_atingido_limites, L in M. apply Z.leb_gt in M. lia.
Qed.

Lemma executar_dentro_do_maximo (chs : list Chamada) :
  forall (o : Objeto) (l m : Z),
    limites o = Some (l, m) ->
    numero_saques (historico o) <= m ->
    numero_saques (historico (executar chs o)) <= m.
Proof.
  induction chs as [|ch chs IH]; intros o l m L H; simpl; [exact H|].
  apply (IH _ l m).
  - rewrite chamar_limites. exact L.
  - apply (chamar_dentro_do_maximo ch o l m L H).
Qed.

(** X3. The history of a checking account never holds more withdrawals than
    its maximum: if it holds at most [_limite_saques] of them, it still does
    after any sequence of calls; so a new checking account created with a
    maximum [>= 0] never records more withdrawals than that, and one created
    by [nova_conta] never more than 3. *)
Theorem X3_nunca_mais_saques_que_o_maximo :
  (forall (cc : ContaCorrente) (chs : list Chamada),
      numero_saques (historico (UmaContaCorrente cc)) <= _limite_saques cc ->
      numero_saques (historico (executar chs (UmaContaCorrente cc)))
      <= _limite_saques cc)
  /\ (forall (numero : Z) (cliente : string) (limite limite_saques : Z)
             (chs : list Chamada),
      0 <= limite_saques ->
      numero_saques
        (historico (executar chs
                      (UmaContaCorrente
                         (ContaCorrente_init numero cliente limite limite_saques))))
      <= limite_saques)
  /\ (forall (cliente : string) (numero : Z) (chs : list Chamada),
      numero_saques (historico (executar chs (ContaCorrente_nova_conta cliente numero)))
      <= 3).
Proof.
  split; [|split].
  - intros cc chs H.
    apply (executar_dentro_do_maximo chs _ (_limite cc) (_limite_saques cc));
      [reflexivity | exact H].
  - intros numero cliente limite limite_saques chs H.
    apply (executar_dentro_do_maximo chs _ limite limite_saques);
      [reflexivity | exact H].
  - intros cliente numero chs.
    apply (executar_dentro_do_maximo chs _ 500 3); [reflexivity|].
    vm_compute. discriminate.
Qed.

Lemma X3_nunca_mais_saques_que_o_maximo_witness :
  numero_saques (historico (UmaContaCorrente cc_no_maximo))
  <= _limite_saques cc_no_maximo
  /\ numero_saques
       (historico (executar [ChamaRegistrar (Saque 10) "03-11-2026 11:00:00"]
                     (UmaContaCorrente cc_no_maximo)))
     <= _limite_saques cc_no_maximo
  /\ numero_saques
       (historico (executar [ChamaRegistrar (Saque 10) "03-11-2026 11:00:00"]
                     (UmaContaCorrente (ContaCorrente_init 1 "12345678900" 500 0))))
     <= 0.
Proof.
  assert (H : numero_saques (historico (UmaContaCorrente cc_no_maximo))
              <= _limite_saques cc_no_maximo) by (vm_compute; discriminate).
  split; [exact H|]. split.
  - exact (proj1 X3_nunca_mais_saques_que_o_maximo cc_no_maximo _ H).
  - apply (proj1 (proj2 X3_nunca_mais_saques_que_o_maximo)). lia.
Defined.

Lemma chamar_no_maximo (ch : Chamada) (o : Objeto) :
  maximo_atingido o = true ->
  maximo_atingido (chamar ch o) = true
  /\ numero_saques (historico (chamar ch o)) = numero_saques (historico o).
Proof.
  intros M.
  assert (S : forall v, sacar v o = (false, o, [msg_acima_limite])
                        \/ sacar v o = (false, o, [msg_maximo_saques])).
  { intros v. rewrite sacar_eq, M. destruct (limite_excedido o v); auto. }
  assert (K : forall o', limites o' = limites o ->
                         numero_saques (historico o') = numero_saques (historico o) ->
                         maximo_atingido o' = true).
  { intros o' L N. rewrite maximo_atingido_limites in *. rewrite L, N. exact M. }
  destruct ch as [v|v|t agora]; simpl.
  - destruct (S v) as [E|E]; rewrite E, estado_de; split; auto.
  - assert (N : numero_saques (historico (estado (depositar v o)))
                = numero_saques (historico o))
      by (rewrite depositar_historico; reflexivity).
    split; [apply K; [apply depositar_limites | exact N] | exact N].
  - assert (N : numero_saques (historico (estado (registrar t agora o)))
                = numero_saques (historico o)).
    { rewrite registrar_numero_saques. destruct t as [v|v]; simpl.
      - destruct (S v) as [E|E]; rewrite E; simpl; lia.
      - rewrite andb_false_r. lia. }
    split; [apply K; [apply registrar_limites | exact N] | exact N].
Qed.

(** X4. Once a checking account has reached its maximum number of
    withdrawals it stays there for good: whatever calls follow, no further
    withdrawal, of any amount, is ever accepted or recorded, and the count
    of withdrawals does not move. *)
Theorem X4_maximo_atingido_para_sempre :
  forall (o : Objeto) (chs : list Chamada),
    maximo_atingido o = true ->
    maximo_atingido (executar chs o) = true
    /\ numero_saques (historico (executar chs o)) = numero_saques (historico o)
    /\ (forall v : float,
          retorno (sacar v (executar chs o)) = false
          /\ estado (sacar v (executar chs o)) = executar chs o).
Proof.
  intros o chs. revert o.
  assert (G : forall chs o, maximo_atingido o = true ->
                maximo_atingido (executar chs o) = true
                /\ numero_saques (historico (executar chs o))
                   = numero_saques (historico o)).
  { intros l. induction l as [|ch chs0 IH]; intros o M; simpl.
    - split; [exact M | reflexivity].
    - destruct (chamar_no_maximo ch o M) as (M1 & N1).
      destruct (IH _ M1) as (M2 & N2).
      split; [exact M2 | lia]. }
  intros o M. destruct (G chs o M) as (M' & N').
  repeat split; try assumption;
    rewrite sacar_eq, M'; destruct (limite_excedido _ v); reflexivity.
Qed.

Lemma X4_maximo_atingido_para_sempre_witness :
  maximo_atingido conta_com_tres_saques = true
  /\ numero_saques
       (historico
          (executar [ChamaRegistrar (Deposito 5) "03-11-2026 11:00:00";
                     ChamaRegistrar (Saque 5) "03-11-2026 11:01:00"]
             conta_com_tres_saques)) = 3
  /\ retorno (sacar 5
                (executar [ChamaRegistrar (Deposito 5) "03-11-2026 11:00:00";
                           ChamaRegistrar (Saque 5) "03-11-2026 11:01:00"]
                   conta_com_tres_saques)) = false.
Proof.
  assert (M : maximo_atingido conta_com_tres_saques = true)
    by (vm_compute; reflexivity).
  split; [exact M|].
  destruct (X4_maximo_atingido_para_sempre conta_com_tres_saques
              [ChamaRegistrar (Deposito 5) "03-11-2026 11:00:00";
               ChamaRegistrar (Saque 5) "03-11-2026 11:01:00"] M)
    as (_ & N & R).
  split; [rewrite N; vm_compute; reflexivity | exact (proj1 (R 5%float))].
Defined.

(** ** What the history can contain *)

Lemma registro_valido_limites (o o' : Objeto) (r : Registro) :
  limites o' = limites o -> registro_valido o r -> registro_valido o' r.
Proof.
  intros L (K & P & C). repeat split; try assumption.
  intros S. rewrite limite_excedido_limites, L, <- limite_excedido_limites.
  apply C, S.
Qed.

Lemma registrar_registros_validos (t : Transacao) (agora : string) (o : Objeto) :
  Forall (registro_valido o) (transacoes (historico o)) ->
  Forall (registro_valido (estado (registrar t agora o)))
    (transacoes (historico (estado (registrar t agora o)))).
Proof.
  intros H. rewrite registrar_transacoes.
  apply Forall_app. split.
  - eapply Forall_impl; [|exact H].
    intros r. apply registro_valido_limites, registrar_limites.
  - destruct (retorno (aplicar t o)) eqn:R; [|constructor].
    constructor; [|constructor].
    apply (registro_valido_limites o); [apply registrar_limites|].
    destruct t as [v|v]; simpl in R.
    + destruct (sacar_verdadeiro v o R) as (L & _ & P & _).
      repeat split; simpl; auto.
    + destruct (depositar_verdadeiro v o R) as (P & _).
      repeat split; simpl; auto. discriminate.
Qed.

Lemma chamar_registros_validos (ch : Chamada) (o : Objeto) :
  Forall (registro_valido o) (transacoes (historico o)) ->
  Forall (registro_valido (chamar ch o)) (transacoes (historico (chamar ch o))).
Proof.
  intros H. destruct ch as [v|v|t agora]; simpl.
  - rewrite sacar_historico. eapply Forall_impl; [|exact H].
    intros r. apply registro_valido_limites, sacar_limites.
  - rewrite depositar_historico. eapply Forall_impl; [|exact H].
    intros r. apply registro_valido_limites, depositar_limites.
  - apply registrar_registros_validos, H.
Qed.

Lemma executar_registros_validos (chs : list Chamada) :
  forall o : Objeto,
    Forall (registro_valido o) (transacoes (historico o)) ->
    Forall (registro_valido (executar chs o)) (transacoes (historico (executar chs o))).
Proof.
  induction chs as [|ch chs IH]; intros o H; simpl; [exact H|].
  apply IH, chamar_registros_validos, H.
Qed.

(** X5. Every record that ends up in the history of a new account, after any
    sequence of calls, is a "Saque" or a "Deposito" whose amount is not
    [<= 0], and on a checking account no recorded withdrawal has an amount
    greater than the ceiling.  More generally the calls keep a history made
    of such records that way. *)
Theorem X5_registros_do_historico :
  (forall (o : Objeto) (chs : list Chamada),
      Forall (registro_valido o) (transacoes (historico o)) ->
      Forall (registro_valido (executar chs o))
        (transacoes (historico (executar chs o))))
  /\ (forall (numero : Z) (cliente : string) (chs : list Chamada) (r : Registro),
      In r (transacoes (historico (executar chs (UmaConta (Conta_init numero cliente))))) ->
      (tipo r = "Saque" \/ tipo r = "Deposito") /\ (reg_valor r <=? 0)%float = false)
  /\ (forall (numero : Z) (cliente : string) (limite limite_saques : Z)
             (chs : list Chamada) (r : Registro),
      In r (transacoes
              (historico
                 (executar chs
                    (UmaContaCorrente
                       (ContaCorrente_init numero cliente limite limite_saques))))) ->
      (tipo r = "Saque" \/ tipo r = "Deposito") /\ (reg_valor r <=? 0)%float = false
      /\ (tipo r = "Saque" -> float_gt_int (reg_valor r) limite = false)).
Proof.
  split; [exact (fun o chs => executar_registros_validos chs o)|]. split.
  - intros numero cliente chs r I.
    pose proof (executar_registros_validos chs (UmaConta (Conta_init numero cliente))
                  (Forall_nil _)) as F.
    rewrite Forall_forall in F. destruct (F r I) as (K & P & _). auto.
  - intros numero cliente limite limite_saques chs r I.
    pose proof (executar_registros_validos chs
                  (UmaContaCorrente
                     (ContaCorrente_init numero cliente limite limite_saques))
                  (Forall_nil _)) as F.
    rewrite Forall_forall in F. destruct (F r I) as (K & P & C).
    repeat split; try assumption.
    intros S. specialize (C S).
    rewrite limite_excedido_limites, executar_limites in C. exact C.
Qed.

Lemma X5_registros_do_historico_witness :
  In (mkRegistro "Saque" 100 "03-11-2026 09:02:00")
     (transacoes
        (historico
           (executar [ChamaRegistrar (Deposito 1000) "03-11-2026 09:00:00";
                      ChamaRegistrar (Saque 100) "03-11-2026 09:02:00"]
              (UmaContaCorrente (ContaCorrente_init 1 "12345678900" 500 3)))))
  /\ float_gt_int 100 500 = false
  /\ Forall (registro_valido
               (executar [ChamaRegistrar (Deposito 7) "03-11-2026 09:00:00"]
                  (Conta_nova_conta "12345678900" 1)))
       (transacoes
          (historico
             (executar [ChamaRegistrar (Deposito 7) "03-11-2026 09:00:00"]
                (Conta_nova_conta "12345678900" 1)))).
Proof.
  assert (I : In (mkRegistro "Saque" 100 "03-11-2026 09:02:00")
                (transacoes
                   (historico
                      (executar [ChamaRegistrar (Deposito 1000) "03-11-2026 09:00:00";
                                 ChamaRegistrar (Saque 100) "03-11-2026 09:02:00"]
                         (UmaContaCorrente
                            (ContaCorrente_init 1 "12345678900" 500 3))))))
    by (vm_compute; right; left; reflexivity).
  split; [exact I|].
  split.
  - destruct (proj2 (proj2 X5_registros_do_historico) _ _ _ _ _ _ I) as (_ & _ & C).
    exact (C eq_refl).
  - apply (proj1 X5_registros_do_historico (Conta_nova_conta "12345678900" 1)).
    apply Forall_nil.
Defined.

(** ** What never changes *)

Lemma chamar_identidade (ch : Chamada) (o : Objeto) :
  _numero (base (chamar ch o)) = _numero (base o)
  /\ _agencia (base (chamar ch o)) = _agencia (base o)
  /\ _cliente (base (chamar ch o)) = _cliente (base o).
Proof.
  assert (S : forall v,
             _numero (base (estado (sacar v o))) = _numero (base o)
             /\ _agencia (base (estado (sacar v o))) = _agencia (base o)
             /\ _cliente (base (estado (sacar v o))) = _cliente (base o)).
  { intros v. rewrite sacar_eq. unfold estado.
    testes; rewrite ?base_com_base; simpl; auto. }
  assert (D : forall v,
             _numero (base (estado (depositar v o))) = _numero (base o)
             /\ _agencia (base (estado (depositar v o))) = _agencia (base o)
             /\ _cliente (base (estado (depositar v o))) = _cliente (base o)).
  { intros v. rewrite depositar_eq. unfold estado.
    testes; rewrite ?base_com_base; simpl; auto. }
  destruct ch as [v|v|t agora]; simpl; [apply S | apply D |].
  rewrite registrar_estado.
  destruct (retorno (aplicar t o)); [|auto].
  unfold com_historico_de. rewrite base_com_base. simpl.
  destruct t as [v|v]; simpl; [apply S | apply D].
Qed.

(** X6. No call ever changes what identifies an account: its number, its
    branch, its owner, its class and, for a checking account, its ceiling
    and its maximum number of withdrawals are after any sequence of calls
    what they were at creation; the branch of a created account is always
    "0001" and the limits of an account made by [ContaCorrente.nova_conta]
    are always 500 and 3. *)
Theorem X6_identidade_da_conta :
  (forall (o : Objeto) (chs : list Chamada),
      _numero (base (executar chs o)) = _numero (base o)
      /\ _agencia (base (executar chs o)) = _agencia (base o)
      /\ _cliente (base (executar chs o)) = _cliente (base o)
      /\ limites (executar chs o) = limites o)
  /\ (forall (cliente : string) (numero : Z) (chs : list Chamada),
      let o := executar chs (ContaCorrente_nova_conta cliente numero) in
      _numero (base o) = numero /\ _agencia (base o) = "0001"
      /\ _cliente (base o) = cliente /\ limites o = Some (500, 3))
  /\ (forall (cliente : string) (numero : Z) (chs : list Chamada),
      let o := executar chs (Conta_nova_conta cliente numero) in
      _numero (base o) = numero /\ _agencia (base o) = "0001"
      /\ _cliente (base o) = cliente /\ limites o = None).
Proof.
  assert (G : forall chs o,
             _numero (base (executar chs o)) = _numero (base o)
             /\ _agencia (base (executar chs o)) = _agencia (base o)
             /\ _cliente (base (executar chs o)) = _cliente (base o)
             /\ limites (executar chs o) = limites o).
  { intros l. induction l as [|ch l IH]; intros o; simpl; [auto|].
    destruct (IH (chamar ch o)) as (N & A & C & L).
    destruct (chamar_identidade ch o) as (N1 & A1 & C1).
    rewrite N, A, C, L, N1, A1, C1, chamar_limites. auto. }
  split; [intros o chs; apply G|].
  split; intros cliente numero chs o;
    destruct (G chs (ContaCorrente_nova_conta cliente numero)) as (N & A & C & L);
    destruct (G chs (Conta_nova_conta cliente numero)) as (N' & A' & C' & L');
    unfold o; repeat split; assumption.
Qed.

(** ** The override of [sacar] *)

(** X8. [ContaCorrente.sacar] only ever restricts [Conta.sacar]: whenever it
    accepts a withdrawal, the base method applied to the same account
    accepts it too and leaves the same balance and attributes; and when the
    amount is within the ceiling and the allowance of withdrawals is not
    used up, it is the base method, result, state and line printed
    included. *)
Theorem X8_conta_corrente_so_restringe :
  forall (cc : ContaCorrente) (v : float),
    (retorno (ContaCorrente_sacar v cc) = true ->
       retorno (Conta_sacar v (super cc)) = true
       /\ super (estado (ContaCorrente_sacar v cc)) = estado (Conta_sacar v (super cc))
       /\ float_gt_int v (_limite cc) = false
       /\ numero_saques (_historico (super cc)) < _limite_saques cc)
    /\ (float_gt_int v (_limite cc) = false ->
        numero_saques (_historico (super cc)) < _limite_saques cc ->
        ContaCorrente_sacar v cc
        = (retorno (Conta_sacar v (super cc)),
           com_super cc (estado (Conta_sacar v (super cc))),
           saida (Conta_sacar v (super cc)))).
Proof.
  intros cc v. rewrite ContaCorrente_sacar_eq, Conta_sacar_eq.
  split.
  - destruct (float_gt_int v (_limite cc)); [discriminate|].
    destruct (Z.leb_spec (_limite_saques cc) (numero_saques (_historico (super cc))));
      [discriminate|].
    destruct (v <=? 0)%float; [discriminate|].
    destruct (_saldo (super cc) <? v)%float; [discriminate|].
    intros _. unfold retorno, estado; simpl. auto.
  - intros L M. rewrite L.
    destruct (Z.leb_spec (_limite_saques cc) (numero_saques (_historico (super cc))));
      [lia|].
    destruct (v <=? 0)%float; [unfold retorno, estado, saida; simpl;
                               rewrite com_super_super; reflexivity|].
    destruct (_saldo (super cc) <? v)%float;
      unfold retorno, estado, saida; simpl; rewrite ?com_super_super; reflexivity.
Qed.

Lemma X8_conta_corrente_so_restringe_witness :
  retorno (ContaCorrente_sacar 50 (mkContaCorrente
             (mkConta 80 1 "0001" "12345678900" Historico_init) 500 3)) = true
  /\ retorno (Conta_sacar 50 (mkConta 80 1 "0001" "12345678900" Historico_init)) = true
  /\ ContaCorrente_sacar 90 (mkContaCorrente
        (mkConta 80 1 "0001" "12345678900" Historico_init) 500 3)
     = (false,
        mkContaCorrente (mkConta 80 1 "0001" "12345678900" Historico_init) 500 3,
        [msg_saldo_insuficiente]).
Proof.
  assert (R : retorno (ContaCorrente_sacar 50 (mkContaCorrente
                (mkConta 80 1 "0001" "12345678900" Historico_init) 500 3)) = true)
    by (vm_compute; reflexivity).
  split; [exact R|]. split.
  - exact (proj1 (proj1 (X8_conta_corrente_so_restringe _ 50%float) R)).
  - rewrite (proj2 (X8_conta_corrente_so_restringe
                      (mkContaCorrente
                         (mkConta 80 1 "0001" "12345678900" Historico_init) 500 3)
                      90%float)).
    + vm_compute. reflexivity.
    + vm_compute. reflexivity.
    + vm_compute. reflexivity.
Defined.

(** ** What is printed *)

(** X10. Every call of [sacar] and of [depositar] prints exactly one line,
    and the line tells the result: the call returned [True] exactly when the
    line is the success line of the operation.  [registrar] prints what the
    account operation printed and nothing else. *)
Theorem X10_uma_linha_por_chamada :
  forall (o : Objeto) (v : float) (agora : string),
    (exists m, saida (sacar v o) = [m]
               /\ In m (msg_saque_sucesso :: mensagens_de_falha)
               /\ (retorno (sacar v o) = true <-> m = msg_saque_sucesso))
    /\ (exists m, saida (depositar v o) = [m]
                  /\ In m [msg_deposito_sucesso; msg_valor_invalido]
                  /\ (retorno (depositar v o) = true <-> m = msg_deposito_sucesso))
    /\ saida (registrar (Saque v) agora o) = saida (sacar v o)
    /\ saida (registrar (Deposito v) agora o) = saida (depositar v o).
Proof.
  intros o v agora.
  assert (N : forall m, In m mensagens_de_falha -> m <> msg_saque_sucesso).
  { intros m I. unfold mensagens_de_falha in I. simpl in I.
    repeat (destruct I as [I|I]; [subst m; apply String.eqb_neq; reflexivity|]).
    destruct I. }
  split; [|split; [|split; apply registrar_saida]].
  - rewrite sacar_eq. unfold mensagens_de_falha.
    destruct (limite_excedido o v);
      [eexists; split; [reflexivity|]; split; [simpl; tauto|];
       split; [discriminate | intros E; exfalso; revert E; apply N; simpl; tauto]|].
    destruct (maximo_atingido o);
      [eexists; split; [reflexivity|]; split; [simpl; tauto|];
       split; [discriminate | intros E; exfalso; revert E; apply N; simpl; tauto]|].
    destruct (v <=? 0)%float;
      [eexists; split; [reflexivity|]; split; [simpl; tauto|];
       split; [discriminate | intros E; exfalso; revert E; apply N; simpl; tauto]|].
    destruct (saldo o <? v)%float;
      [eexists; split; [reflexivity|]; split; [simpl; tauto|];
       split; [discriminate | intros E; exfalso; revert E; apply N; simpl; tauto]|].
    eexists; split; [reflexivity|]. split; [simpl; tauto|]. split; reflexivity.
  - rewrite depositar_eq.
    destruct (v <=? 0)%float.
    + eexists; split; [reflexivity|]. split; [simpl; tauto|].
      split; [discriminate|].
      intros E. exfalso. revert E. apply String.eqb_neq. reflexivity.
    + eexists; split; [reflexivity|]. split; [simpl; tauto|]. split; reflexivity.
Qed.

(** * Amounts that are numbers, and amounts that are not *)

(** ** With finite amounts the balance stays zero or positive *)

Lemma valor_aceito_positivo (v : float) :
  isfinite v = true -> (v <=? 0)%float = false ->
  exists m e, Prim2SF v = S754_finite false m e.
Proof.
  unfold isfinite. rewrite leb_spec. change (Prim2SF 0) with (S754_zero false).
  unfold SFleb.
  destruct (Prim2SF v) as [s|s| |s m e]; simpl; try discriminate.
  destruct s; simpl; [discriminate|]. intros _ _. exists m, e. reflexivity.
Qed.

Lemma add_nao_negativo (s v : float) :
  (0 <=? s)%float = true -> isfinite v = true -> (v <=? 0)%float = false ->
  (0 <=? s + v)%float = true.
Proof.
  intros Hs Fv Pv. apply leb_zero_sf. rewrite add_spec.
  apply SFadd_nao_negativo; [apply leb_zero_sf, Hs|].
  destruct (valor_aceito_positivo v Fv Pv) as (m & e & E). rewrite E. reflexivity.
Qed.

Lemma sub_nao_negativo (s v : float) :
  (0 <=? s)%float = true -> isfinite v = true ->
  (v <=? 0)%float = false -> (s <? v)%float = false ->
  (0 <=? s - v)%float = true.
Proof.
  intros Hs Fv Pv Lv. apply leb_zero_sf. rewrite sub_spec.
  destruct (valor_aceito_positivo v Fv Pv) as (m & e & E).
  apply leb_zero_sf in Hs. rewrite ltb_spec in Lv.
  pose proof (Prim2SF_valid s) as Vs. pose proof (Prim2SF_valid v) as Vv.
  rewrite E in *. unfold SFltb in Lv.
  destruct (Prim2SF s) as [ss|ss| |ss ms es]; simpl in Hs.
  - discriminate Lv.
  - subst ss. reflexivity.
  - destruct Hs.
  - subst ss. apply SFsub_nao_negativo; [exact Vs | exact Vv |].
    intros C. rewrite C in Lv. discriminate Lv.
Qed.

Lemma sacar_saldo_nao_negativo (v : float) (o : Objeto) :
  (0 <=? saldo o)%float = true -> isfinite v = true ->
  (0 <=? saldo (estado (sacar v o)))%float = true.
Proof.
  intros H F. destruct (retorno (sacar v o)) eqn:R.
  - destruct (sacar_verdadeiro v o R) as (_ & _ & P & L & _).
    rewrite (sacar_sucesso v o R). apply sub_nao_negativo; assumption.
  - rewrite (sacar_falha v o R). exact H.
Qed.

Lemma depositar_saldo_nao_negativo (v : float) (o : Objeto) :
  (0 <=? saldo o)%float = true -> isfinite v = true ->
  (0 <=? saldo (estado (depositar v o)))%float = true.
Proof.
  intros H F. destruct (retorno (depositar v o)) eqn:R.
  - destruct (depositar_verdadeiro v o R) as (P & _).
    rewrite (depositar_sucesso v o R). apply add_nao_negativo; assumption.
  - rewrite (depositar_falha v o R). exact H.
Qed.

Lemma chamar_saldo_nao_negativo (ch : Chamada) (o : Objeto) :
  (0 <=? saldo o)%float = true -> isfinite (valor_da_chamada ch) = true ->
  (0 <=? saldo (chamar ch o))%float = true.
Proof.
  intros H F. destruct ch as [v|v|t agora]; simpl in *.
  - apply sacar_saldo_nao_negativo; assumption.
  - apply depositar_saldo_nao_negativo; assumption.
  - rewrite registrar_saldo. destruct t as [v|v]; simpl in *.
    + apply sacar_saldo_nao_negativo; assumption.
    + apply depositar_saldo_nao_negativo; assumption.
Qed.

(** X7. As long as every amount is a finite number (anything [float] accepts
    but "nan" and "inf"), the balance of an account is never below zero and
    never NaN: [0 <= balance] holds after any sequence of direct calls and
    registered transactions on a new account, plain or checking with any
    limits, and is preserved from any account where it holds. *)
Theorem X7_saldo_nao_negativo_com_valores_finitos :
  (forall (o : Objeto) (chs : list Chamada),
      (0 <=? saldo o)%float = true ->
      Forall (fun ch => isfinite (valor_da_chamada ch) = true) chs ->
      (0 <=? saldo (executar chs o))%float = true)
  /\ (forall (numero : Z) (cliente : string) (chs : list Chamada),
      Forall (fun ch => isfinite (valor_da_chamada ch) = true) chs ->
      (0 <=? saldo (executar chs (UmaConta (Conta_init numero cliente))))%float = true)
  /\ (forall (numero : Z) (cliente : string) (limite limite_saques : Z)
             (chs : list Chamada),
      Forall (fun ch => isfinite (valor_da_chamada ch) = true) chs ->
      (0 <=? saldo (executar chs
                      (UmaContaCorrente
                         (ContaCorrente_init numero cliente limite limite_saques))))%float
      = true).
Proof.
  assert (G : forall chs o,
             (0 <=? saldo o)%float = true ->
             Forall (fun ch => isfinite (valor_da_chamada ch) = true) chs ->
             (0 <=? saldo (executar chs o))%float = true).
  { intros chs. induction chs as [|ch chs IH]; intros o H F; simpl; [exact H|].
    inversion F as [|? ? F1 F2]; subst.
    apply IH; [|exact F2]. apply chamar_saldo_nao_negativo; assumption. }
  split; [intros o chs; apply G|].
  split; intros; apply G; try assumption; reflexivity.
Qed.

Lemma X7_saldo_nao_negativo_com_valores_finitos_witness :
  (0 <=? saldo conta_com_1e18)%float = true
  /\ Forall (fun ch => isfinite (valor_da_chamada ch) = true)
       [ChamaSacar 1; ChamaRegistrar (Saque 1e18) "03-11-2026 12:05:00"]
  /\ (0 <=? saldo (executar
                     [ChamaSacar 1; ChamaRegistrar (Saque 1e18) "03-11-2026 12:05:00"]
                     conta_com_1e18))%float = true.
Proof.
  assert (H : (0 <=? saldo conta_com_1e18)%float = true) by reflexivity.
  assert (F : Forall (fun ch => isfinite (valor_da_chamada ch) = true)
                [ChamaSacar 1; ChamaRegistrar (Saque 1e18) "03-11-2026 12:05:00"])
    by (repeat constructor).
  split; [exact H|]. split; [exact F|].
  exact (proj1 X7_saldo_nao_negativo_com_valores_finitos conta_com_1e18 _ H F).
Defined.

(** ** Limits that are zero or negative *)

Lemma acima_de_teto_nao_positivo (m : positive) (e l : Z) :
  l <= 0 ->
  (if 0 <=? e then l <? Zpos m * 2 ^ e else l * 2 ^ (- e) <? Zpos m) = true.
Proof.
  intros L. destruct (Z.leb_spec 0 e); apply Z.ltb_lt.
  - assert (0 < Zpos m * 2 ^ e)
      by (apply Z.mul_pos_pos; [lia | apply Z.pow_pos_nonneg; lia]).
    lia.
  - assert (0 < 2 ^ (- e)) by (apply Z.pow_pos_nonneg; lia).
    nia.
Qed.

Lemma abaixo_de_teto_nao_positivo (v : float) (l : Z) :
  l <= 0 -> is_nan v = false -> float_gt_int v l = false ->
  (v <=? 0)%float = true.
Proof.
  unfold is_nan, float_gt_int. rewrite eqb_spec, leb_spec.
  change (Prim2SF 0) with (S754_zero false). unfold SFeqb, SFleb.
  intros L.
  destruct (Prim2SF v) as [s|s| |s m e].
  - reflexivity.
  - destruct s; [reflexivity | discriminate].
  - discriminate.
  - destruct s; [reflexivity|]. intros _ G. cbv beta iota zeta in G.
    rewrite (acima_de_teto_nao_positivo m e l L) in G. discriminate G.
Qed.

(** X9. A checking account whose maximum number of withdrawals is zero or
    negative never lets anything out: every withdrawal, of any amount and in
    any state, returns [False] and leaves the account unchanged.  The same
    holds for a ceiling that is zero or negative and every amount that is a
    number; an amount that is NaN is not stopped by such a ceiling. *)
Theorem X9_limites_nao_positivos :
  (forall (cc : ContaCorrente) (v : float),
      _limite_saques cc <= 0 ->
      retorno (sacar v (UmaContaCorrente cc)) = false
      /\ estado (sacar v (UmaContaCorrente cc)) = UmaContaCorrente cc)
  /\ (forall (cc : ContaCorrente) (v : float),
      _limite cc <= 0 -> is_nan v = false ->
      retorno (sacar v (UmaContaCorrente cc)) = false
      /\ estado (sacar v (UmaContaCorrente cc)) = UmaContaCorrente cc)
  /\ (forall cc : ContaCorrente, float_gt_int nan (_limite cc) = false).
Proof.
  split; [|split].
  - intros cc v H. rewrite sacar_eq. simpl limite_excedido. simpl maximo_atingido.
    assert (N : 0 <= numero_saques (historico (UmaContaCorrente cc)))
      by (unfold numero_saques; lia).
    destruct (float_gt_int v (_limite cc)); [auto|].
    destruct (Z.leb_spec (_limite_saques cc)
                (numero_saques (historico (UmaContaCorrente cc)))); [auto | lia].
  - intros cc v H N. rewrite sacar_eq. simpl limite_excedido.
    destruct (float_gt_int v (_limite cc)) eqn:G; [auto|].
    destruct (maximo_atingido (UmaContaCorrente cc)); [auto|].
    rewrite (abaixo_de_teto_nao_positivo v (_limite cc) H N G). auto.
  - intros cc. reflexivity.
Qed.

Lemma X9_limites_nao_positivos_witness :
  (_limite_saques
     (mkContaCorrente (mkConta 80 1 "0001" "12345678900" Historico_init) 500 0) <= 0)
  /\ retorno (sacar 10 (UmaContaCorrente
                (mkContaCorrente (mkConta 80 1 "0001" "12345678900" Historico_init)
                   500 0))) = false
  /\ (_limite
        (mkContaCorrente (mkConta 80 1 "0001" "12345678900" Historico_init) 0 3) <= 0)
  /\ is_nan 10 = false
  /\ retorno (sacar 10 (UmaContaCorrente
                (mkContaCorrente (mkConta 80 1 "0001" "12345678900" Historico_init)
                   0 3))) = false.
Proof.
  assert (H : _limite_saques
                (mkContaCorrente (mkConta 80 1 "0001" "12345678900" Historico_init)
                   500 0) <= 0) by (vm_compute; discriminate).
  assert (K : _limite
                (mkContaCorrente (mkConta 80 1 "0001" "12345678900" Historico_init)
                   0 3) <= 0) by (vm_compute; discriminate).
  assert (N : is_nan 10 = false) by reflexivity.
  split; [exact H|].
  split; [exact (proj1 (proj1 X9_limites_nao_positivos _ 10%float H))|].
  split; [exact K|]. split; [exact N|].
  exact (proj1 (proj1 (proj2 X9_limites_nao_positivos) _ 10%float K N)).
Defined.

(** ** NaN *)

Lemma sacar_com_saldo_nan (v : float) (o : Objeto) :
  saldo o = nan -> saldo (estado (sacar v o)) = nan.
Proof.
  intros H. destruct (retorno (sacar v o)) eqn:R.
  - rewrite (sacar_sucesso v o R), H. apply nan_sub.
  - rewrite (sacar_falha v o R). exact H.
Qed.

Lemma depositar_com_saldo_nan (v : float) (o : Objeto) :
  saldo o = nan -> saldo (estado (depositar v o)) = nan.
Proof.
  intros H. destruct (retorno (depositar v o)) eqn:R.
  - rewrite (depositar_sucesso v o R), H. apply nan_add.
  - rewrite (depositar_falha v o R). exact H.
Qed.

Lemma chamar_com_saldo_nan (ch : Chamada) (o : Objeto) :
  saldo o = nan -> saldo (chamar ch o) = nan.
Proof.
  intros H. destruct ch as [v|v|t agora]; simpl.
  - apply sacar_com_saldo_nan, H.
  - apply depositar_com_saldo_nan, H.
  - rewrite registrar_saldo. destruct t as [v|v]; simpl.
    + apply sacar_com_saldo_nan, H.
    + apply depositar_com_saldo_nan, H.
Qed.

(** X16. The amount NaN is stopped by none of the tests on amounts: on every
    account [depositar(nan)] returns [True], and [sacar(nan)] returns [True]
    unless the maximum number of withdrawals is reached; both leave a
    balance that is NaN.  A balance that is NaN stays NaN whatever calls
    follow, and it lets every withdrawal through that the other tests let
    through: the sufficient-funds test never fires again. *)
Theorem X16_nan :
  (forall o : Objeto,
      depositar nan o
      = (true, com_base o (com_saldo (base o) nan), [msg_deposito_sucesso]))
  /\ (forall o : Objeto,
      maximo_atingido o = false ->
      sacar nan o = (true, com_base o (com_saldo (base o) nan), [msg_saque_sucesso]))
  /\ (forall (o : Objeto) (chs : list Chamada),
      saldo o = nan -> saldo (executar chs o) = nan)
  /\ (forall (o : Objeto) (v : float),
      saldo o = nan ->
      limite_excedido o v = false -> maximo_atingido o = false ->
      (v <=? 0)%float = false ->
      retorno (sacar v o) = true).
Proof.
  split; [|split; [|split]].
  - intros o. rewrite depositar_eq. change (nan <=? 0)%float with false.
    rewrite (proj2 (nan_add (saldo o))). reflexivity.
  - intros o M. rewrite sacar_eq, M.
    assert (L : limite_excedido o nan = false) by (destruct o; reflexivity).
    rewrite L. change (nan <=? 0)%float with false.
    rewrite (proj2 (nan_ltb (saldo o))), (proj2 (nan_sub (saldo o))). reflexivity.
  - intros o chs. revert o.
    induction chs as [|ch chs IH]; intros o H; simpl; [exact H|].
    apply IH, chamar_com_saldo_nan, H.
  - intros o v H L M P. rewrite sacar_eq, L, M, P, H.
    rewrite (proj1 (nan_ltb v)). reflexivity.
Qed.

Lemma X16_nan_witness :
  maximo_atingido (Conta_nova_conta "12345678900" 1) = false
  /\ saldo (estado (sacar nan (Conta_nova_conta "12345678900" 1))) = nan
  /\ saldo conta_com_saldo_nan = nan
  /\ saldo (executar [ChamaDepositar 10] conta_com_saldo_nan) = nan
  /\ retorno (sacar 400 conta_com_saldo_nan) = true.
Proof.
  assert (M : maximo_atingido (Conta_nova_conta "12345678900" 1) = false)
    by reflexivity.
  assert (H : saldo conta_com_saldo_nan = nan) by (vm_compute; reflexivity).
  split; [exact M|].
  split; [rewrite (proj1 (proj2 X16_nan) _ M); reflexivity|].
  split; [exact H|].
  split; [exact (proj1 (proj2 (proj2 X16_nan)) conta_com_saldo_nan _ H)|].
  apply (proj2 (proj2 (proj2 X16_nan)) conta_com_saldo_nan 400%float H);
    vm_compute; reflexivity.
Defined.

(** * Properties of the menu functions *)

(** ** Looking a client up *)

Lemma filtrar_cliente_None (x : string) (clientes : list PessoaFisica) :
  filtrar_cliente x clientes = None <-> ~ In x (map cpf clientes).
Proof.
  unfold filtrar_cliente. induction clientes as [|c cs IH]; simpl.
  - tauto.
  - destruct (String.eqb_spec (cpf c) x) as [E|E].
    + split; [discriminate | intros H; exfalso; apply H; left; exact E].
    + rewrite IH. tauto.
Qed.

Lemma filtrar_cliente_Some (x : string) (clientes : list PessoaFisica)
    (c : PessoaFisica) :
  filtrar_cliente x clientes = Some c ->
  exists antes depois,
    clientes = antes ++ c :: depois /\ cpf c = x /\ ~ In x (map cpf antes).
Proof.
  unfold filtrar_cliente. induction clientes as [|d cs IH]; simpl; [discriminate|].
  destruct (String.eqb_spec (cpf d) x) as [E|E].
  - intros H. injection H as H. subst d.
    exists [], cs. simpl. tauto.
  - intros H. destruct (IH H) as (antes & depois & E1 & E2 & E3).
    exists (d :: antes), depois. subst cs. simpl. repeat split; [exact E2|].
    intros [F|F]; [exact (E F) | exact (E3 F)].
Qed.

Lemma filtrar_cliente_unico (clientes : list PessoaFisica) :
  NoDup (map cpf clientes) ->
  forall c, In c clientes -> filtrar_cliente (cpf c) clientes = Some c.
Proof.
  unfold filtrar_cliente. induction clientes as [|d cs IH]; simpl; intros N c I.
  - destruct I.
  - inversion N as [|? ? N1 N2]; subst.
    destruct I as [I|I].
    + subst d. rewrite String.eqb_refl. reflexivity.
    + destruct (String.eqb_spec (cpf d) (cpf c)) as [E|E].
      * exfalso. apply N1. rewrite E. apply in_map, I.
      * apply IH; assumption.
Qed.

(** X11. [filtrar_cliente] returns [None] exactly when no client of the list
    has the CPF asked for; otherwise it returns the first client of the
    list, in list order, that has it.  When the CPFs of the list are
    pairwise distinct, looking up the CPF of any client of the list returns
    that very client. *)
Theorem X11_filtrar_cliente :
  forall (x : string) (clientes : list PessoaFisica),
    (filtrar_cliente x clientes = None <-> ~ In x (map cpf clientes))
    /\ (forall c : PessoaFisica,
          filtrar_cliente x clientes = Some c ->
          exists antes depois,
            clientes = antes ++ c :: depois /\ cpf c = x
            /\ ~ In x (map cpf antes))
    /\ (NoDup (map cpf clientes) ->
        forall c : PessoaFisica,
          In c clientes -> filtrar_cliente (cpf c) clientes = Some c).
Proof.
  intros x clientes. split; [apply filtrar_cliente_None|].
  split; [intros c; apply filtrar_cliente_Some | apply filtrar_cliente_unico].
Qed.

Lemma X11_filtrar_cliente_witness :
  filtrar_cliente "222"
    [PessoaFisica_init "Ana" "01-01-1990" "111" "Rua A, 1";
     PessoaFisica_init "Rui" "02-02-1980" "222" "Rua B, 2"]
  = Some (PessoaFisica_init "Rui" "02-02-1980" "222" "Rua B, 2").
Proof.
  apply (proj2 (proj2 (X11_filtrar_cliente "222"
                         [PessoaFisica_init "Ana" "01-01-1990" "111" "Rua A, 1";
                          PessoaFisica_init "Rui" "02-02-1980" "222" "Rua B, 2"]))
           ltac:(simpl; repeat constructor; simpl; intuition discriminate)
           (PessoaFisica_init "Rui" "02-02-1980" "222" "Rua B, 2")).
  simpl. right. left. reflexivity.
Defined.

(** ** The account a client operates on *)

Lemma adicionar_contas_contas (ns : list Z) :
  forall c : PessoaFisica,
    contas (fold_left adicionar_conta ns c) = contas c ++ ns.
Proof.
  induction ns as [|n ns IH]; intros c; simpl.
  - rewrite app_nil_r. reflexivity.
  - rewrite IH. simpl. rewrite <- app_assoc. reflexivity.
Qed.

(** X12. [recuperar_conta_cliente] gives the first account of the client
    and prints nothing; for a client without accounts it gives [None] and
    prints the no-account line.  As [adicionar_conta] appends, the account
    it gives for a client never changes once the client has one: it is the
    first that was added, however many are added later. *)
Theorem X12_primeira_conta_do_cliente :
  forall (c : PessoaFisica) (ns : list Z) (term : Terminal),
    (contas c = [] ->
       recuperar_conta_cliente c term
       = Some (None,
               mkTerminal (entrada term) (tela term ++ [Linha msg_cliente_sem_conta]))
       /\ recuperar_conta_cliente (fold_left adicionar_conta ns c) term
          = match ns with
            | [] => Some (None,
                          mkTerminal (entrada term)
                            (tela term ++ [Linha msg_cliente_sem_conta]))
            | n :: _ => Some (Some n, term)
            end)
    /\ (forall (p : Z) (outras : list Z),
          contas c = p :: outras ->
          recuperar_conta_cliente c term = Some (Some p, term)
          /\ recuperar_conta_cliente (fold_left adicionar_conta ns c) term
             = Some (Some p, term)).
Proof.
  intros c ns term. unfold recuperar_conta_cliente.
  rewrite adicionar_contas_contas.
  split.
  - intros E. rewrite E. simpl. split; [reflexivity|].
    destruct ns; reflexivity.
  - intros p outras E. rewrite E. simpl. split; reflexivity.
Qed.

Lemma X12_primeira_conta_do_cliente_witness :
  recuperar_conta_cliente
    (fold_left adicionar_conta [9; 2]
       (adicionar_conta (PessoaFisica_init "Ana" "01-01-1990" "111" "Rua A, 1") 4))
    (mkTerminal [] [])
  = Some (Some 4, mkTerminal [] [])
  /\ recuperar_conta_cliente
       (fold_left adicionar_conta [4; 9]
          (PessoaFisica_init "Ana" "01-01-1990" "111" "Rua A, 1"))
       (mkTerminal [] [])
     = Some (Some 4, mkTerminal [] []).
Proof.
  split.
  - apply (proj2 (X12_primeira_conta_do_cliente
                    (adicionar_conta
                       (PessoaFisica_init "Ana" "01-01-1990" "111" "Rua A, 1") 4)
                    [9; 2] (mkTerminal [] [])) 4 []).
    reflexivity.
  - apply (proj1 (X12_primeira_conta_do_cliente
                    (PessoaFisica_init "Ana" "01-01-1990" "111" "Rua A, 1")
                    [4; 9] (mkTerminal [] []))).
    reflexivity.
Defined.

(** ** Creating clients *)

Lemma NoDup_no_fim {A : Type} (l : list A) (a : A) :
  NoDup l -> ~ In a l -> NoDup (l ++ [a]).
Proof.
  induction l as [|b l IH]; simpl; intros N I.
  - constructor; [tauto | constructor].
  - inversion N as [|? ? N1 N2]; subst. constructor.
    + rewrite in_app_iff. simpl. intros [F|[F|[]]]; [tauto|].
      apply I. left. symmetry. exact F.
    + apply IH; tauto.
Qed.

Lemma criar_cliente_casos (clientes clientes' : list PessoaFisica)
    (term term' : Terminal) :
  criar_cliente clientes term = Some (clientes', term') ->
  exists x resto,
    entrada term = x :: resto
    /\ ((In x (map cpf clientes) /\ clientes' = clientes)
        \/ (~ In x (map cpf clientes)
            /\ exists n d e,
                 clientes' = clientes ++ [PessoaFisica_init n d x e])).
Proof.
  unfold criar_cliente, Menu.bind, Menu.input, Menu.print, Menu.ret.
  destruct (entrada term) as [|x resto] eqn:E; [discriminate|]. simpl.
  intros H. exists x, resto. split; [reflexivity|].
  destruct (filtrar_cliente x clientes) as [c|] eqn:F.
  - left. injection H as H1 H2. split; [|congruence].
    intros. destruct (In_dec string_dec x (map cpf clientes)) as [I|I]; [exact I|].
    apply filtrar_cliente_None in I. congruence.
  - right. split; [apply filtrar_cliente_None, F|].
    destruct resto as [|n [|d [|e resto]]]; simpl in H; try discriminate.
    injection H as H1 H2. exists n, d, e. congruence.
Qed.

(** X13. [criar_cliente] reads the CPF first.  If a client of the list
    already has it, the list is left as it is, the refusal is printed and
    nothing more is read.  Otherwise name, date of birth and address are
    read and a client with these data and no account is appended at the
    end.  In every case the clients already in the list stay where they
    are, and a list whose CPFs are pairwise distinct stays so.  When the
    keyboard runs out before the answers are complete the call ends in
    [EOFError] instead of a result. *)
Theorem X13_criar_cliente :
  forall (clientes : list PessoaFisica) (term : Terminal),
    (forall (x : string) (resto : list string),
        entrada term = x :: resto -> In x (map cpf clientes) ->
        criar_cliente clientes term
        = Some (clientes,
                mkTerminal resto
                  (tela term ++ [Pergunta "Informe o CPF (somente números): ";
                                 Linha msg_cpf_ja_existe])))
    /\ (forall (x n d e : string) (resto : list string),
        entrada term = x :: n :: d :: e :: resto -> ~ In x (map cpf clientes) ->
        criar_cliente clientes term
        = Some (clientes ++ [mkPessoaFisica e [] n d x],
                mkTerminal resto
                  (tela term
                   ++ [Pergunta "Informe o CPF (somente números): ";
                       Pergunta "Informe o nome completo: ";
                       Pergunta "Informe a data de nascimento (dd-mm-aaaa): ";
                       Pergunta
                         "Informe o endereço (logradouro, nro - bairro - cidade/sigla estado): ";
                       Linha msg_cliente_criado])))
    /\ ((entrada term = [] -> criar_cliente clientes term = None)
        /\ (forall (x : string) (resto : list string),
              entrada term = x :: resto -> ~ In x (map cpf clientes) ->
              (List.length resto < 3)%nat ->
              criar_cliente clientes term = None))
    /\ (forall (clientes' : list PessoaFisica) (term' : Terminal),
        criar_cliente clientes term = Some (clientes', term') ->
        (exists novos, clientes' = clientes ++ novos /\ (List.length novos <= 1)%nat)
        /\ (NoDup (map cpf clientes) -> NoDup (map cpf clientes'))).
Proof.
  intros clientes term. split; [|split; [|split]].
  - intros x resto E I.
    unfold criar_cliente, Menu.bind, Menu.input, Menu.print, Menu.ret.
    rewrite E. simpl.
    destruct (filtrar_cliente x clientes) eqn:F.
    + simpl. rewrite <- app_assoc. reflexivity.
    + apply filtrar_cliente_None in F. contradiction.
  - intros x n d e resto E I.
    unfold criar_cliente, Menu.bind, Menu.input, Menu.print, Menu.ret.
    rewrite E. simpl.
    apply filtrar_cliente_None in I. rewrite I. simpl.
    rewrite <- !app_assoc. reflexivity.
  - unfold criar_cliente, Menu.bind, Menu.input, Menu.print, Menu.ret.
    split; [intros E; rewrite E; reflexivity|].
    intros x resto E I L. rewrite E. simpl.
    apply filtrar_cliente_None in I. rewrite I.
    destruct resto as [|n [|d [|e resto]]]; simpl in *; try reflexivity. lia.
  - intros clientes' term' H.
    destruct (criar_cliente_casos _ _ _ _ H) as (x & resto & E & [[I C]|[I (n & d & e & C)]]).
    + subst clientes'. split; [|auto].
      exists []. rewrite app_nil_r. split; [reflexivity | simpl; lia].
    + subst clientes'. split.
      * eexists. split; [reflexivity | simpl; lia].
      * intros N. rewrite map_app. simpl. apply NoDup_no_fim; assumption.
Qed.

Lemma X13_criar_cliente_witness :
  criar_cliente [PessoaFisica_init "Ana" "01-01-1990" "111" "Rua A, 1"]
    (mkTerminal ["111"; "nc"] [])
  = Some ([PessoaFisica_init "Ana" "01-01-1990" "111" "Rua A, 1"],
          mkTerminal ["nc"]
            [Pergunta "Informe o CPF (somente números): "; Linha msg_cpf_ja_existe])
  /\ NoDup (map cpf
             [PessoaFisica_init "Ana" "01-01-1990" "111" "Rua A, 1";
              PessoaFisica_init "Rui" "02-02-1980" "222" "Rua B, 2"])
  /\ criar_cliente [PessoaFisica_init "Ana" "01-01-1990" "111" "Rua A, 1"]
       (mkTerminal ["222"; "Rui"] []) = None.
Proof.
  assert (N : NoDup (map cpf [PessoaFisica_init "Ana" "01-01-1990" "111" "Rua A, 1"]))
    by (simpl; repeat constructor; simpl; tauto).
  assert (I : ~ In "222" (map cpf [PessoaFisica_init "Ana" "01-01-1990" "111" "Rua A, 1"]))
    by (simpl; intros [F|[]]; discriminate F).
  pose proof (X13_criar_cliente [PessoaFisica_init "Ana" "01-01-1990" "111" "Rua A, 1"]
                (mkTerminal ["111"; "nc"] [])) as (A & _ & _ & _).
  pose proof (X13_criar_cliente [PessoaFisica_init "Ana" "01-01-1990" "111" "Rua A, 1"]
                (mkTerminal ["222"; "Rui"; "02-02-1980"; "Rua B, 2"] []))
    as (_ & B & _ & D).
  pose proof (X13_criar_cliente [PessoaFisica_init "Ana" "01-01-1990" "111" "Rua A, 1"]
                (mkTerminal ["222"; "Rui"] [])) as (_ & _ & C & _).
  split; [apply (A "111" ["nc"]); [reflexivity | simpl; left; reflexivity]|].
  split.
  - exact (proj2 (D _ _ (B "222" "Rui" "02-02-1980" "Rua B, 2" [] eq_refl I)) N).
  - apply (proj2 C "222" ["Rui"] eq_refl I). simpl. lia.
Defined.

(** ** Creating accounts *)

Section NoCliente.

Variable x : string.
Variable f : PessoaFisica -> PessoaFisica.
Hypothesis f_cpf : forall c, cpf (f c) = cpf c.

Lemma no_cliente_cpfs (clientes : list PessoaFisica) :
  map cpf (no_cliente x f clientes) = map cpf clientes.
Proof.
  induction clientes as [|c cs IH]; simpl; [reflexivity|].
  destruct (String.eqb (cpf c) x); simpl; [rewrite f_cpf | rewrite IH]; reflexivity.
Qed.

Lemma no_cliente_filtrar (clientes : list PessoaFisica) :
  filtrar_cliente x (no_cliente x f clientes)
  = option_map f (filtrar_cliente x clientes).
Proof.
  unfold filtrar_cliente. induction clientes as [|c cs IH]; simpl; [reflexivity|].
  destruct (String.eqb (cpf c) x) eqn:E; simpl.
  - rewrite f_cpf, E. reflexivity.
  - rewrite E. exact IH.
Qed.

Lemma no_cliente_filtrar_outro (y : string) (clientes : list PessoaFisica) :
  y <> x ->
  filtrar_cliente y (no_cliente x f clientes) = filtrar_cliente y clientes.
Proof.
  intros D. unfold filtrar_cliente.
  induction clientes as [|c cs IH]; simpl; [reflexivity|].
  destruct (String.eqb_spec (cpf c) x) as [E|E]; simpl.
  - rewrite f_cpf.
    destruct (String.eqb_spec (cpf c) y) as [E'|E']; [congruence | reflexivity].
  - destruct (String.eqb (cpf c) y); [reflexivity | exact IH].
Qed.

Lemma no_cliente_In (clientes : list PessoaFisica) (c' : PessoaFisica) :
  In c' (no_cliente x f clientes) ->
  In c' clientes \/ exists c, In c clientes /\ cpf c = x /\ c' = f c.
Proof.
  induction clientes as [|c cs IH]; simpl; [tauto|].
  destruct (String.eqb_spec (cpf c) x) as [E|E]; simpl.
  - intros [H|H]; [right; exists c; auto | left; auto].
  - intros [H|H]; [left; auto|].
    destruct (IH H) as [I|(c0 & I & E0 & F)]; [left; auto|].
    right. exists c0. auto.
Qed.

End NoCliente.

Lemma criar_conta_casos (numero : Z) (clientes : list PessoaFisica)
    (contas : list Objeto) (term : Terminal) :
  criar_conta numero clientes contas term
  = match entrada term with
    | [] => None
    | x :: resto =>
        if in_dec string_dec x (map cpf clientes)
        then Some (no_cliente x (fun c => adicionar_conta c numero) clientes,
                   contas ++ [ContaCorrente_nova_conta x numero],
                   mkTerminal resto
                     (tela term ++ [Pergunta "Informe o CPF do cliente: ";
                                    Linha msg_conta_criada]))
        else Some (clientes, contas,
                   mkTerminal resto
                     (tela term ++ [Pergunta "Informe o CPF do cliente: ";
                                    Linha msg_cliente_nao_encontrado]))
    end.
Proof.
  unfold criar_conta, Menu.bind, Menu.input, Menu.print, Menu.ret.
  destruct (entrada term) as [|x resto]; [reflexivity|]. simpl.
  destruct (in_dec string_dec x (map cpf clientes)) as [I|I].
  - destruct (filtrar_cliente x clientes) as [c|] eqn:F.
    + destruct (filtrar_cliente_Some _ _ _ F) as (_ & _ & _ & E & _).
      rewrite E. simpl. rewrite <- app_assoc. reflexivity.
    + apply filtrar_cliente_None in F. contradiction.
  - apply filtrar_cliente_None in I. rewrite I. simpl.
    rewrite <- app_assoc. reflexivity.
Qed.

(** X14. [criar_conta] reads a CPF.  If no client has it, the clients and
    the accounts are left as they are and the not-found line is printed.
    Otherwise a checking account with the number given, balance 0, an empty
    history, the limits 500 and 3 and this client as owner is appended to
    [contas], and the number is appended to the accounts of that client:
    looking the CPF up afterwards gives the client with the new account
    last, the lookup of every other CPF gives what it gave before, and the
    CPFs of the list and their order are unchanged. *)
Theorem X14_criar_conta :
  forall (numero : Z) (clientes : list PessoaFisica) (contas : list Objeto)
         (term : Terminal) (x : string) (resto : list string),
    entrada term = x :: resto ->
    (~ In x (map cpf clientes) ->
       criar_conta numero clientes contas term
       = Some (clientes, contas,
               mkTerminal resto
                 (tela term ++ [Pergunta "Informe o CPF do cliente: ";
                                Linha msg_cliente_nao_encontrado])))
    /\ (forall c : PessoaFisica,
          filtrar_cliente x clientes = Some c ->
          exists clientes',
            criar_conta numero clientes contas term
            = Some (clientes',
                    contas
                    ++ [UmaContaCorrente
                          (mkContaCorrente
                             (mkConta 0 numero "0001" x (mkHistorico [])) 500 3)],
                    mkTerminal resto
                      (tela term ++ [Pergunta "Informe o CPF do cliente: ";
                                     Linha msg_conta_criada]))
            /\ map cpf clientes' = map cpf clientes
            /\ filtrar_cliente x clientes' = Some (adicionar_conta c numero)
            /\ (forall y : string,
                  y <> x -> filtrar_cliente y clientes' = filtrar_cliente y clientes)).
Proof.
  intros numero clientes contas term x resto E.
  rewrite criar_conta_casos, E. split.
  - intros I. destruct (in_dec string_dec x (map cpf clientes)); [contradiction|].
    reflexivity.
  - intros c F.
    destruct (in_dec string_dec x (map cpf clientes)) as [I|I];
      [|apply filtrar_cliente_None in I; congruence].
    eexists. split; [reflexivity|].
    split; [apply no_cliente_cpfs; reflexivity|].
    split; [rewrite no_cliente_filtrar, F; reflexivity|].
    intros y D. apply no_cliente_filtrar_outro; [reflexivity | exact D].
Qed.

Lemma X14_criar_conta_witness :
  filtrar_cliente "222"
    [PessoaFisica_init "Ana" "01-01-1990" "111" "Rua A, 1";
     PessoaFisica_init "Rui" "02-02-1980" "222" "Rua B, 2"]
  = Some (PessoaFisica_init "Rui" "02-02-1980" "222" "Rua B, 2")
  /\ (exists clientes',
        criar_conta 1
          [PessoaFisica_init "Ana" "01-01-1990" "111" "Rua A, 1";
           PessoaFisica_init "Rui" "02-02-1980" "222" "Rua B, 2"]
          [] (mkTerminal ["222"] [])
        = Some (clientes',
                [UmaContaCorrente
                   (mkContaCorrente
                      (mkConta 0 1 "0001" "222" (mkHistorico [])) 500 3)],
                mkTerminal []
                  [Pergunta "Informe o CPF do cliente: "; Linha msg_conta_criada])
        /\ filtrar_cliente "222" clientes'
           = Some (adicionar_conta
                     (PessoaFisica_init "Rui" "02-02-1980" "222" "Rua B, 2") 1))
  /\ criar_conta 1 [PessoaFisica_init "Ana" "01-01-1990" "111" "Rua A, 1"]
       [] (mkTerminal ["222"] [])
     = Some ([PessoaFisica_init "Ana" "01-01-1990" "111" "Rua A, 1"], [],
             mkTerminal []
               [Pergunta "Informe o CPF do cliente: ";
                Linha msg_cliente_nao_encontrado]).
Proof.
  assert (F : filtrar_cliente "222"
                [PessoaFisica_init "Ana" "01-01-1990" "111" "Rua A, 1";
                 PessoaFisica_init "Rui" "02-02-1980" "222" "Rua B, 2"]
              = Some (PessoaFisica_init "Rui" "02-02-1980" "222" "Rua B, 2"))
    by reflexivity.
  split; [exact F|]. split.
  - destruct (proj2 (X14_criar_conta 1
                       [PessoaFisica_init "Ana" "01-01-1990" "111" "Rua A, 1";
                        PessoaFisica_init "Rui" "02-02-1980" "222" "Rua B, 2"]
                       [] (mkTerminal ["222"] []) "222" [] eq_refl) _ F)
      as (clientes' & R & _ & L & _).
    exists clientes'. split; [exact R | exact L].
  - apply (proj1 (X14_criar_conta 1
                    [PessoaFisica_init "Ana" "01-01-1990" "111" "Rua A, 1"]
                    [] (mkTerminal ["222"] []) "222" [] eq_refl)).
    simpl. intros [H|[]]. discriminate H.
Defined.

(** ** A consistent bank *)

Lemma numeros_no_fim (contas : list Objeto) (o : Objeto) :
  numeros contas
  = map (fun i => Z.of_nat i + 1) (seq 0 (List.length contas)) ->
  _numero (base o) = Z.of_nat (List.length contas) + 1 ->
  numeros (contas ++ [o])
  = map (fun i => Z.of_nat i + 1) (seq 0 (List.length (contas ++ [o]))).
Proof.
  intros S E. unfold numeros in *.
  rewrite last_length, seq_S, !map_app, S. simpl. rewrite E. reflexivity.
Qed.

Lemma criar_cliente_consistente (clientes clientes' : list PessoaFisica)
    (contas : list Objeto) (term term' : Terminal) :
  banco_consistente (clientes, contas) ->
  criar_cliente clientes term = Some (clientes', term') ->
  banco_consistente (clientes', contas).
Proof.
  intros (N & S & O & R) C.
  destruct (criar_cliente_casos _ _ _ _ C)
    as (x & resto & E & [[I K]|[I (n & d & e & K)]]); subst clientes'.
  - repeat split; assumption.
  - repeat split.
    + rewrite map_app. simpl. apply NoDup_no_fim; assumption.
    + exact S.
    + intros o Io. rewrite map_app. apply in_or_app. left. apply O, Io.
    + intros c m Ic Im. apply in_app_or in Ic. destruct Ic as [Ic|[Ic|[]]].
      * apply (R c m Ic Im).
      * subst c. destruct Im.
Qed.

Lemma criar_conta_consistente (clientes clientes' : list PessoaFisica)
    (contas contas' : list Objeto) (term term' : Terminal) :
  banco_consistente (clientes, contas) ->
  criar_conta (Z.of_nat (List.length contas) + 1) clientes contas term
  = Some (clientes', contas', term') ->
  banco_consistente (clientes', contas').
Proof.
  intros (N & S & O & R) H.
  rewrite criar_conta_casos in H.
  destruct (entrada term) as [|x resto]; [discriminate|].
  destruct (in_dec string_dec x (map cpf clientes)) as [I|I];
    injection H as H1 H2 H3; subst clientes' contas' term';
    [|repeat split; assumption].
  repeat split.
  - rewrite no_cliente_cpfs; [exact N | reflexivity].
  - apply numeros_no_fim; [exact S | reflexivity].
  - intros o Io. rewrite no_cliente_cpfs; [|reflexivity].
    apply in_app_or in Io. destruct Io as [Io|[Io|[]]]; [apply O, Io|].
    subst o. exact I.
  - intros c m Ic Im.
    apply no_cliente_In in Ic. destruct Ic as [Ic|(c0 & I0 & E0 & F)].
    + destruct (R c m Ic Im) as (o & Io & Eo). exists o.
      split; [apply in_or_app; left; exact Io | exact Eo].
    + subst c. unfold contas_do_cliente in Im. simpl in Im.
      apply in_app_or in Im. destruct Im as [Im|[Im|[]]].
      * destruct (R c0 m I0 Im) as (o & Io & Eo). exists o.
        split; [apply in_or_app; left; exact Io | exact Eo].
      * subst m. eexists. split; [apply in_or_app; right; left; reflexivity|].
        simpl. auto.
Qed.

(** X15. A bank is consistent when the CPFs of its clients are pairwise
    distinct, the accounts of [contas] are numbered 1, 2, 3, ... in order,
    every account is owned by a registered client, and every account number
    held by a client is that of an account of [contas] owned by this
    client.  [criar_cliente] keeps a consistent bank consistent, and so does
    [criar_conta] when it is called with the number [len(contas) + 1]; the
    two empty lists are a consistent bank; and in a consistent bank the k-th
    account of [contas] has number k. *)
Theorem X15_banco_consistente :
  (forall (clientes clientes' : list PessoaFisica) (contas : list Objeto)
          (term term' : Terminal),
      banco_consistente (clientes, contas) ->
      criar_cliente clientes term = Some (clientes', term') ->
      banco_consistente (clientes', contas))
  /\ (forall (clientes clientes' : list PessoaFisica) (contas contas' : list Objeto)
             (term term' : Terminal),
      banco_consistente (clientes, contas) ->
      criar_conta (Z.of_nat (List.length contas) + 1) clientes contas term
      = Some (clientes', contas', term') ->
      banco_consistente (clientes', contas'))
  /\ banco_consistente ([], [])
  /\ (forall (clientes : list PessoaFisica) (contas : list Objeto)
             (k : nat) (o : Objeto),
      banco_consistente (clientes, contas) ->
      nth_error contas k = Some o -> _numero (base o) = Z.of_nat k + 1).
Proof.
  split; [exact criar_cliente_consistente|].
  split; [exact criar_conta_consistente|].
  split; [simpl; repeat split; try constructor; simpl; tauto|].
  intros clientes contas k o (_ & S & _) K.
  pose proof (map_nth_error (fun o => _numero (base o)) k contas K) as E.
  fold (numeros contas) in E. rewrite S, nth_error_map, nth_error_seq in E.
  destruct (Nat.ltb k (List.length contas)); simpl in E; [|discriminate].
  injection E as E. lia.
Qed.

Lemma X15_banco_consistente_witness :
  banco_consistente ([], [])
  /\ criar_cliente [] (mkTerminal ["111"; "Ana"; "01-01-1990"; "Rua A, 1"] [])
     = Some ([mkPessoaFisica "Rua A, 1" [] "Ana" "01-01-1990" "111"],
             mkTerminal []
               [Pergunta "Informe o CPF (somente números): ";
                Pergunta "Informe o nome completo: ";
                Pergunta "Informe a data de nascimento (dd-mm-aaaa): ";
                Pergunta
                  "Informe o endereço (logradouro, nro - bairro - cidade/sigla estado): ";
                Linha msg_cliente_criado])
  /\ banco_consistente ([mkPessoaFisica "Rua A, 1" [] "Ana" "01-01-1990" "111"], [])
  /\ (exists clientes' contas' term',
        criar_conta (Z.of_nat (List.length (@nil Objeto)) + 1)
          [mkPessoaFisica "Rua A, 1" [] "Ana" "01-01-1990" "111"] []
          (mkTerminal ["111"] [])
        = Some (clientes', contas', term')
        /\ banco_consistente (clientes', contas')
        /\ (forall o, nth_error contas' 0 = Some o -> _numero (base o) = 1)).
Proof.
  assert (B : banco_consistente ([], [])) by exact (proj1 (proj2 (proj2 X15_banco_consistente))).
  assert (C : criar_cliente [] (mkTerminal ["111"; "Ana"; "01-01-1990"; "Rua A, 1"] [])
              = Some ([mkPessoaFisica "Rua A, 1" [] "Ana" "01-01-1990" "111"],
                      mkTerminal []
                        [Pergunta "Informe o CPF (somente números): ";
                         Pergunta "Informe o nome completo: ";
                         Pergunta "Informe a data de nascimento (dd-mm-aaaa): ";
                         Pergunta
                           "Informe o endereço (logradouro, nro - bairro - cidade/sigla estado): ";
                         Linha msg_cliente_criado]))
    by reflexivity.
  pose proof (proj1 X15_banco_consistente _ _ _ _ _ B C) as B1.
  split; [exact B|]. split; [exact C|]. split; [exact B1|].
  destruct (criar_conta (Z.of_nat (List.length (@nil Objeto)) + 1)
              [mkPessoaFisica "Rua A, 1" [] "Ana" "01-01-1990" "111"] []
              (mkTerminal ["111"] [])) as [[[cl' co'] t']|] eqn:K;
    [|vm_compute in K; discriminate K].
  exists cl', co', t'. split; [reflexivity|].
  pose proof (proj1 (proj2 X15_banco_consistente) _ _ _ _ _ _ B1 K) as B2.
  split; [exact B2|].
  intros o Ho.
  exact (proj2 (proj2 (proj2 X15_banco_consistente)) cl' co' 0%nat o B2 Ho).
Defined.
